(** * Sum_Basics: the training loop of [module/train.py]

    A shallow embedding of the [Trainer] class: its constructor, the two
    formatting helpers, the per-epoch training and validation passes and the
    epoch loop with its checkpoint and record files.

    Python values are modelled the way the interpreter has them: [int] is an
    unbounded integer ([Z]), [float] is an IEEE-754 binary64 number (the
    [spec_float] of the standard library at precision 53, with its own
    rounding), exceptions are values of [exn].  The deep-learning framework
    is an interface ([Torch]) whose calls are logged in order. *)

From Stdlib Require Import ZArith List Ascii String SpecFloat Lia.
From stdpp Require Import gmap strings list pretty.

Open Scope Z_scope.

(** ** Python values and arithmetic *)

Module Py.

(** The exceptions the code of this file can raise or let through. *)
Inductive exn : Type :=
| ZeroDivisionError
| OverflowError
| ValueError
| TypeError
| KeyError (key : string)
| AttributeError (cls attr : string).

Inductive result (A : Type) : Type :=
| Ok (a : A)
| Raise (e : exn).
Arguments Ok {A} a.
Arguments Raise {A} e.

Definition rbind {A B} (c : result A) (k : A -> result B) : result B :=
  match c with
  | Ok a => k a
  | Raise e => Raise e
  end.

Notation "'let*' x ':=' c 'in' k" := (rbind c (fun x => k))
  (at level 10, x pattern, c at level 100, k at level 200).

(** *** Floats: binary64 *)

Definition prec : Z := 53.
Definition emax : Z := 1024.

Abbreviation pyfloat := spec_float.

(** The smallest exponent of the format. *)
Definition emin64 : Z := emin prec emax.

Definition fzero : pyfloat := S754_zero false.
Definition fone : pyfloat := S754_finite false 4503599627370496 (-52).
Definition finf : pyfloat := S754_infinity false.
Definition fnan : pyfloat := S754_nan.

Definition fadd : pyfloat -> pyfloat -> pyfloat := SFadd prec emax.
Definition fsub : pyfloat -> pyfloat -> pyfloat := SFsub prec emax.
Definition fmul : pyfloat -> pyfloat -> pyfloat := SFmul prec emax.
Definition fdiv : pyfloat -> pyfloat -> pyfloat := SFdiv prec emax.
Definition flt : pyfloat -> pyfloat -> bool := SFltb.

Definition f_is_zero (x : pyfloat) : bool :=
  match x with S754_zero _ => true | _ => false end.

Definition f_is_inf (x : pyfloat) : bool :=
  match x with S754_infinity _ => true | _ => false end.

Definition f_is_nan (x : pyfloat) : bool :=
  match x with S754_nan => true | _ => false end.

(** An integer as an exact, not normalised, binary number. *)
Definition Z2SF (z : Z) : pyfloat :=
  match z with
  | Z0 => S754_zero false
  | Zpos p => S754_finite false p 0
  | Zneg p => S754_finite true p 0
  end.

(** [float(n)]: the nearest float, ties to even; an integer that rounds
    beyond the largest float raises [OverflowError]. *)
Definition int_to_float (z : Z) : result pyfloat :=
  let r := binary_normalize prec emax z 0 false in
  if f_is_inf r then Raise OverflowError else Ok r.

(** [int(x)] of a float: truncation toward zero; [nan] and the infinities
    raise. *)
Definition float_to_int (x : pyfloat) : result Z :=
  match x with
  | S754_nan => Raise ValueError
  | S754_infinity _ => Raise OverflowError
  | S754_zero _ => Ok 0
  | S754_finite s m e =>
      let a := Z.shiftl (Zpos m) e in
      Ok (if s then - a else a)
  end.

(** *** Numbers: [int] or [float] *)

Inductive pynum : Type :=
| PInt (z : Z)
| PFloat (x : pyfloat).

Definition as_float (a : pynum) : result pyfloat :=
  match a with
  | PInt z => int_to_float z
  | PFloat x => Ok x
  end.

(** [a + b], [a - b], [a * b]: exact on two ints, otherwise both operands
    are converted to float first. *)
Definition py_arith (zop : Z -> Z -> Z) (fop : pyfloat -> pyfloat -> pyfloat)
    (a b : pynum) : result pynum :=
  match a, b with
  | PInt x, PInt y => Ok (PInt (zop x y))
  | _, _ =>
      let* x := as_float a in
      let* y := as_float b in
      Ok (PFloat (fop x y))
  end.

Definition py_add : pynum -> pynum -> result pynum := py_arith Z.add fadd.
Definition py_sub : pynum -> pynum -> result pynum := py_arith Z.sub fsub.
Definition py_mul : pynum -> pynum -> result pynum := py_arith Z.mul fmul.

(** [a / b]: true division, always a float.  Two ints give the correctly
    rounded quotient of the exact integers; a zero divisor raises
    [ZeroDivisionError]. *)
Definition py_truediv (a b : pynum) : result pyfloat :=
  match a, b with
  | PInt x, PInt y =>
      if y =? 0 then Raise ZeroDivisionError
      else
        let q := fdiv (Z2SF x) (Z2SF y) in
        if f_is_inf q then Raise OverflowError else Ok q
  | _, _ =>
      let* x := as_float a in
      let* y := as_float b in
      if f_is_zero y then Raise ZeroDivisionError else Ok (fdiv x y)
  end.

(** [int(a)]. *)
Definition py_int (a : pynum) : result Z :=
  match a with
  | PInt z => Ok z
  | PFloat x => float_to_int x
  end.

(** [a < b] on two numbers.  Python compares an int with a float exactly,
    without converting the int. *)
Definition float_cmp_int (x : pyfloat) (z : Z) : option comparison :=
  match x with
  | S754_nan => None
  | S754_infinity s => Some (if s then Lt else Gt)
  | S754_zero _ => Some (0 ?= z)
  | S754_finite s m e =>
      let v := if s then Zneg m else Zpos m in
      Some (if 0 <=? e then (v * 2 ^ e ?= z) else (v ?= z * 2 ^ (- e)))
  end.

Definition num_lt (a b : pynum) : bool :=
  match a, b with
  | PInt x, PInt y => x <? y
  | PFloat x, PFloat y => flt x y
  | PFloat x, PInt y =>
      match float_cmp_int x y with Some Lt => true | _ => false end
  | PInt x, PFloat y =>
      match float_cmp_int y x with Some Gt => true | _ => false end
  end.

(** *** Values held by a record dictionary *)

Inductive pyval : Type :=
| VNum (n : pynum)
| VStr (s : string).

Abbreviation VInt z := (VNum (PInt z)).
Abbreviation VFloat x := (VNum (PFloat x)).

(** [a > b]: numbers with numbers, strings with strings; anything else is a
    [TypeError]. *)
Definition py_gt (a b : pyval) : result bool :=
  match a, b with
  | VNum x, VNum y => Ok (num_lt y x)
  | VStr s, VStr t => Ok (String.ltb t s)
  | _, _ => Raise TypeError
  end.

(** A [dict]: insertion-ordered, one entry per key. *)
Definition dict : Type := list (string * pyval).

Fixpoint dict_set (d : dict) (k : string) (v : pyval) : dict :=
  match d with
  | [] => [(k, v)]
  | (k', v') :: d' =>
      if String.eqb k' k then (k', v) :: d' else (k', v') :: dict_set d' k v
  end.

Fixpoint dict_get (d : dict) (k : string) : result pyval :=
  match d with
  | [] => Raise (KeyError k)
  | (k', v') :: d' => if String.eqb k' k then Ok v' else dict_get d' k
  end.

(** [{k: v for k, v in pairs}]. *)
Definition dict_of_pairs (pairs : list (string * pyval)) : dict :=
  fold_left (fun d kv => dict_set d (fst kv) (snd kv)) pairs [].

(** [s.replace(old, new)]: every occurrence, left to right, without
    overlap.  [skip] counts the characters of a matched occurrence that are
    still to be dropped. *)
Fixpoint replace_from (old new : string) (skip : nat) (s : string) : string :=
  match s with
  | EmptyString =>
      match old with EmptyString => new | _ => EmptyString end
  | String c s' =>
      match skip with
      | S k => replace_from old new k s'
      | O =>
          if String.prefix old s
          then new +:+
               match String.length old with
               | O => String c (replace_from old new 0 s')
               | S k => replace_from old new k s'
               end
          else String c (replace_from old new 0 s')
      end
  end.

Definition str_replace (s old new : string) : string :=
  replace_from old new 0 s.

(** [' ' * n]. *)
Fixpoint spaces (n : nat) : string :=
  match n with
  | O => EmptyString
  | S k => String " "%char (spaces k)
  end.

(** *** JSON documents, as [json.dump] receives them *)

#[local] Unset Elimination Schemes.
Inductive json : Type :=
| JNum (n : pynum)
| JStr (s : string)
| JArr (items : list json)
| JObj (members : list (string * json)).
#[local] Set Elimination Schemes.

Definition json_of_val (v : pyval) : json :=
  match v with
  | VNum n => JNum n
  | VStr s => JStr s
  end.

Definition json_of_dict (d : dict) : json :=
  JObj (map (fun kv => (fst kv, json_of_val (snd kv))) d).

Definition json_of_records (records : list dict) : json :=
  JArr (map json_of_dict records).

(** *** Computations with side effects

    A computation over a state [S] returns a value or raises; either way it
    leaves a state behind, since what was done before an exception stays
    done. *)

Inductive outcome (S A : Type) : Type :=
| Return (a : A) (s : S)
| Throw (e : exn) (s : S).
Arguments Return {S A} a s.
Arguments Throw {S A} e s.

Definition M (S A : Type) : Type := S -> outcome S A.

Definition ret {S A} (a : A) : M S A := fun s => Return a s.

Definition bind {S A B} (c : M S A) (k : A -> M S B) : M S B :=
  fun s =>
    match c s with
    | Return a s' => k a s'
    | Throw e s' => Throw e s'
    end.

Notation "'let!' x ':=' c 'in' k" := (bind c (fun x => k))
  (at level 10, x pattern, c at level 100, k at level 200).

(** A pure Python operation inside a computation. *)
Definition lift {S A} (r : result A) : M S A :=
  fun s =>
    match r with
    | Ok a => Return a s
    | Raise e => Throw e s
    end.

(** [for x in xs: acc = body(acc, x)]. *)
Fixpoint for_each {S A B} (body : A -> B -> M S A) (xs : list B) (acc : A)
    : M S A :=
  match xs with
  | [] => ret acc
  | x :: xs' => let! acc' := body acc x in for_each body xs' acc'
  end.

Definition final_state {S A} (o : outcome S A) : S :=
  match o with
  | Return _ s => s
  | Throw _ s => s
  end.

End Py.
Export Py.

(** ** The formatting helper [measure_time] *)

(** [Trainer.measure_time] (a static method), lines 48-53. *)
Definition measure_time (start_time end_time : pynum) : result string :=
  let* elapsed_time := py_sub end_time start_time in
  let* q := py_truediv elapsed_time (PInt 60) in
  let* elapsed_min := py_int (PFloat q) in
  let* p := py_mul (PInt elapsed_min) (PInt 60) in
  let* d := py_sub elapsed_time p in
  let* elapsed_sec := py_int d in
  Ok (pretty elapsed_min +:+ "m " +:+ pretty elapsed_sec +:+ "s").

(** ** The collaborators of the trainer *)

(** The deep-learning framework: the model, its two optimizers, the rate
    scheduler and the gradient scaler live in a framework state [T] that only
    these calls read or change. *)
Inductive optimizer_id : Type :=
| MainOptimizer   (* self.optimizer *)
| BertOptimizer.  (* self.bert_optimizer *)

Class Torch (T Tensor Blob : Type) : Type := {
  tensor_to : string -> Tensor -> Tensor;
  model_train : T -> T;
  model_eval : T -> T;
  (* [self.model(x, x_seg_mask, y).loss]: the value [loss.item()] has, and
     the state after the forward computation *)
  model_forward : bool -> Tensor -> Tensor -> Tensor -> T -> pyfloat * T;
  loss_backward : T -> T;
  clip_grad_norm_ : pynum -> T -> T;
  optimizer_step : optimizer_id -> T -> T;
  optimizer_zero_grad : optimizer_id -> T -> T;
  scheduler_step : pyval -> T -> T;
  optimizer_lr : optimizer_id -> T -> pyfloat;
  model_state_dict : T -> Blob;
  optimizer_state_dict : optimizer_id -> T -> Blob;
  (* the objects the constructor creates *)
  new_grad_scaler : T -> T;
  new_adamw : optimizer_id -> pyfloat -> T -> T;
  new_reduce_lr_on_plateau : optimizer_id -> string -> T -> T
}.

(** The interpreter's own functions the trainer calls. *)
Class Builtins : Type := {
  (* [round(x, 3)] of a float *)
  round3 : pyfloat -> pyfloat;
  (* [math.exp(x)]; [None] is its OverflowError *)
  math_exp : pyfloat -> option pyfloat;
  (* [format(x, '.<d>f')] of a float *)
  format_f : nat -> pyfloat -> string;
  (* [str(x)] of a float *)
  float_str : pyfloat -> string;
  (* the value of the n-th call of [time.time()] *)
  time_time : nat -> pyfloat
}.

(** The calls made to the framework, in order. *)
Inductive call {Tensor : Type} : Type :=
| CModelTrain
| CModelEval
| CForward (grad : bool) (x x_seg_mask y : Tensor)
| CBackward
| CClipGradNorm (max_norm : pynum)
| COptimizerStep (o : optimizer_id)
| COptimizerZeroGrad (o : optimizer_id)
| CSchedulerStep (metric : pyval)
| CGradScaler
| CAdamW (o : optimizer_id) (lr : pyfloat)
| CReduceLROnPlateau (o : optimizer_id) (mode : string).
Arguments call : clear implicits.

Record Framework (T Tensor : Type) : Type := {
  fw : T;
  calls : list (call Tensor)
}.
Arguments fw {T Tensor} _.
Arguments calls {T Tensor} _.

(** A batch of the data loaders. *)
Record Batch (Tensor : Type) : Type := {
  input_ids : Tensor;
  token_type_ids : Tensor;
  labels : Tensor
}.
Arguments input_ids {Tensor} _.
Arguments token_type_ids {Tensor} _.
Arguments labels {Tensor} _.

(** The configuration record the constructor reads. *)
Record Config : Type := {
  cfg_clip : pynum;
  cfg_device : string;
  cfg_strategy : string;
  cfg_n_epochs : Z;
  cfg_vocab_size : Z;
  cfg_iters_to_accumulate : Z;
  cfg_early_stop : bool;
  cfg_patience : Z;
  cfg_learning_rate : pyfloat;
  cfg_ckpt_path : string
}.

(** The attributes of a constructed trainer.  The model, the optimizers, the
    scheduler and the scaler are framework objects and live in the framework
    state.  [model_name] is the attribute line 32 reads. *)
Record Trainer (Tensor : Type) : Type := {
  clip : pynum;
  device : string;
  strategy : string;
  n_epochs : Z;
  vocab_size : Z;
  iters_to_accumulate : Z;
  early_stop : bool;
  patience : Z;
  train_dataloader : list (Batch Tensor);
  valid_dataloader : list (Batch Tensor);
  ckpt_path : string;
  model_name : string
}.
Arguments clip {Tensor} _.
Arguments device {Tensor} _.
Arguments strategy {Tensor} _.
Arguments n_epochs {Tensor} _.
Arguments vocab_size {Tensor} _.
Arguments iters_to_accumulate {Tensor} _.
Arguments early_stop {Tensor} _.
Arguments patience {Tensor} _.
Arguments train_dataloader {Tensor} _.
Arguments valid_dataloader {Tensor} _.
Arguments ckpt_path {Tensor} _.
Arguments model_name {Tensor} _.

(** Line 32: [f"ckpt/{self.model_name}.json"]. *)
Definition record_path {Tensor} (self : Trainer Tensor) : string :=
  "ckpt/" +:+ model_name self +:+ ".json".

(** Lines 33-34. *)
Definition record_keys : list string :=
  ["epoch"; "train_loss"; "train_ppl"; "valid_loss";
   "valid_ppl"; "learning_rate"; "train_time"]%string.

(** What a checkpoint file holds (lines 75-77). *)
Record Checkpoint (Blob : Type) : Type := {
  ck_epoch : Z;
  ck_model_state_dict : Blob;
  ck_optimizer_state_dict : Blob
}.
Arguments ck_epoch {Blob} _.
Arguments ck_model_state_dict {Blob} _.
Arguments ck_optimizer_state_dict {Blob} _.

Inductive file (Blob : Type) : Type :=
| FCheckpoint (c : Checkpoint Blob)
| FJson (j : json).
Arguments FCheckpoint {Blob} c.
Arguments FJson {Blob} j.

(** What the trainer does to the outside, in order. *)
Inductive io_event (Blob : Type) : Type :=
| IOPrint (text : string)
| IOTorchSave (path : string) (c : Checkpoint Blob)
| IOJsonDump (path : string) (j : json).
Arguments IOPrint {Blob} text.
Arguments IOTorchSave {Blob} path c.
Arguments IOJsonDump {Blob} path j.

Record World (T Tensor Blob : Type) : Type := {
  framework : Framework T Tensor;
  ticks : nat;
  io : list (io_event Blob);
  files : gmap string (file Blob)
}.
Arguments framework {T Tensor Blob} _.
Arguments ticks {T Tensor Blob} _.
Arguments io {T Tensor Blob} _.
Arguments files {T Tensor Blob} _.

(** ** The trainer's methods *)

Section Methods.

Context {T Tensor Blob : Type} `{!Torch T Tensor Blob} `{!Builtins}.

Abbreviation FW := (Framework T Tensor).
Abbreviation W := (World T Tensor Blob).

(** *** Calls into the framework, logged *)

Definition fw_call (c : call Tensor) (f : T -> T) : M FW unit :=
  fun s => Return tt {| fw := f (fw s); calls := calls s ++ [c] |}.

Definition forward (grad : bool) (x x_seg_mask y : Tensor) : M FW pyfloat :=
  fun s =>
    let '(loss, t) := model_forward grad x x_seg_mask y (fw s) in
    Return loss {| fw := t; calls := calls s ++ [CForward grad x x_seg_mask y] |}.

Definition fw_read {A} (f : T -> A) : M FW A :=
  fun s => Return (f (fw s)) s.

(** *** Effects on the outside *)

Definition in_framework {A} (c : M FW A) : M W A :=
  fun w =>
    let upd f := {| framework := f; ticks := ticks w;
                    io := io w; files := files w |} in
    match c (framework w) with
    | Return a f => Return a (upd f)
    | Throw e f => Throw e (upd f)
    end.

(** [time.time()]. *)
Definition now : M W pyfloat :=
  fun w =>
    Return (time_time (ticks w))
      {| framework := framework w; ticks := S (ticks w);
         io := io w; files := files w |}.

(** [print(text)]. *)
Definition print (text : string) : M W unit :=
  fun w =>
    Return tt
      {| framework := framework w; ticks := ticks w;
         io := io w ++ [IOPrint text]; files := files w |}.

(** [torch.save(obj, path)]: the file is replaced. *)
Definition torch_save (c : Checkpoint Blob) (path : string) : M W unit :=
  fun w =>
    Return tt
      {| framework := framework w; ticks := ticks w;
         io := io w ++ [IOTorchSave path c];
         files := <[path := FCheckpoint c]> (files w) |}.

(** [with open(path, 'w') as fp: json.dump(obj, fp)]: the file is
    replaced. *)
Definition json_dump_to (j : json) (path : string) : M W unit :=
  fun w =>
    Return tt
      {| framework := framework w; ticks := ticks w;
         io := io w ++ [IOJsonDump path j];
         files := <[path := FJson j]> (files w) |}.

(** *** Formatting *)

(** [str(v)], as an f-string field without a format spec has it. *)
Definition py_str (v : pyval) : string :=
  match v with
  | VNum (PInt z) => pretty z
  | VNum (PFloat x) => float_str x
  | VStr s => s
  end.

(** [format(v, '.<d>f')]: an int is converted to float first; a string does
    not accept the [f] format. *)
Definition py_format_f (d : nat) (v : pyval) : result string :=
  match v with
  | VNum n => let* x := as_float n in Ok (format_f d x)
  | VStr _ => Raise ValueError
  end.

Definition newline : string := String (ascii_of_nat 10) EmptyString.

(** [Trainer.print_epoch], lines 37-45.  Each literal has a backslash at the
    end of its first line, so the 14 spaces that indent its second line are
    part of the text until [replace] removes them. *)
Definition print_epoch (self : Trainer Tensor) (record_dict : dict)
    : M W unit :=
  let! epoch := lift (dict_get record_dict "epoch") in
  let! train_time := lift (dict_get record_dict "train_time") in
  let! _ := print (str_replace
      ("Epoch " +:+ py_str epoch +:+ "/" +:+ pretty (n_epochs self) +:+ " | "
       +:+ spaces 14 +:+ "Time: " +:+ py_str train_time)
      (spaces 14) "") in
  let! train_loss := lift (dict_get record_dict "train_loss") in
  let! train_loss_s := lift (py_format_f 3 train_loss) in
  let! train_ppl := lift (dict_get record_dict "train_ppl") in
  let! train_ppl_s := lift (py_format_f 2 train_ppl) in
  let! _ := print (str_replace
      ("  >> Train Loss: " +:+ train_loss_s +:+ " | "
       +:+ spaces 14 +:+ "Train PPL: " +:+ train_ppl_s)
      (spaces 14) "") in
  let! valid_loss := lift (dict_get record_dict "valid_loss") in
  let! valid_loss_s := lift (py_format_f 3 valid_loss) in
  let! valid_ppl := lift (dict_get record_dict "valid_ppl") in
  let! valid_ppl_s := lift (py_format_f 2 valid_ppl) in
  print (str_replace
      ("  >> Valid Loss: " +:+ valid_loss_s +:+ " | "
       +:+ spaces 14 +:+ "Valid PPL: " +:+ valid_ppl_s +:+ newline)
      (spaces 14) "").

(** *** The two passes *)

(** The body of the loop of [train_epoch], lines 92-103. *)
Definition train_batch (self : Trainer Tensor) (epoch_loss : pynum)
    (batch : Batch Tensor) : M FW pynum :=
  let x := tensor_to (device self) (input_ids batch) in
  let x_seg_mask := tensor_to (device self) (token_type_ids batch) in
  let y := tensor_to (device self) (labels batch) in
  let! loss := forward true x x_seg_mask y in
  let! _ := fw_call CBackward loss_backward in
  let! _ := fw_call (CClipGradNorm (clip self)) (clip_grad_norm_ (clip self)) in
  let! _ := fw_call (COptimizerStep MainOptimizer)
                    (optimizer_step MainOptimizer) in
  let! _ := fw_call (COptimizerZeroGrad MainOptimizer)
                    (optimizer_zero_grad MainOptimizer) in
  lift (py_add epoch_loss (PFloat loss)).

Definition exp_or_raise (x : pyfloat) : result pyfloat :=
  match math_exp x with
  | Some e => Ok e
  | None => Raise OverflowError
  end.

(** [Trainer.train_epoch], lines 86-107. *)
Definition train_epoch (self : Trainer Tensor) : M FW (pyfloat * pyfloat) :=
  let! _ := fw_call CModelTrain model_train in
  let epoch_loss := PInt 0 in
  let tot_len := Z.of_nat (length (train_dataloader self)) in
  let! epoch_loss :=
    for_each (train_batch self) (train_dataloader self) epoch_loss in
  let! q := lift (py_truediv epoch_loss (PInt tot_len)) in
  let epoch_loss := round3 q in
  let! e := lift (exp_or_raise epoch_loss) in
  let epoch_ppl := round3 e in
  ret (epoch_loss, epoch_ppl).

(** The body of the loop of [valid_epoch], lines 118-122: the loss is
    computed and bound to a local name, the running total is not touched. *)
Definition valid_batch (self : Trainer Tensor) (epoch_loss : pynum)
    (batch : Batch Tensor) : M FW pynum :=
  let x := tensor_to (device self) (input_ids batch) in
  let x_seg_mask := tensor_to (device self) (token_type_ids batch) in
  let y := tensor_to (device self) (labels batch) in
  let! loss := forward false x x_seg_mask y in
  ret epoch_loss.

(** [Trainer.valid_epoch], lines 111-127. *)
Definition valid_epoch (self : Trainer Tensor) : M FW (pyfloat * pyfloat) :=
  let! _ := fw_call CModelEval model_eval in
  let epoch_loss := PInt 0 in
  let tot_len := Z.of_nat (length (valid_dataloader self)) in
  let! epoch_loss :=
    for_each (valid_batch self) (valid_dataloader self) epoch_loss in
  let! q := lift (py_truediv epoch_loss (PInt tot_len)) in
  let epoch_loss := round3 q in
  let! e := lift (exp_or_raise epoch_loss) in
  let epoch_ppl := round3 e in
  ret (epoch_loss, epoch_ppl).

(** *** The epoch loop *)

(** [self.train_epoch()] and [self.valid_epoch()] are looked up on the
    instance when [train] runs, so a subclass or a test double can replace
    them; [Methods] is what the two names resolve to. *)
Record Methods : Type := {
  m_train_epoch : Trainer Tensor -> M FW (pyfloat * pyfloat);
  m_valid_epoch : Trainer Tensor -> M FW (pyfloat * pyfloat)
}.

(** The class as written. *)
Definition Trainer_class : Methods :=
  {| m_train_epoch := train_epoch; m_valid_epoch := valid_epoch |}.

(** [range(lo, hi)]. *)
Definition py_range (lo hi : Z) : list Z :=
  map (fun i => lo + Z.of_nat i) (seq 0 (Z.to_nat (hi - lo))).

(** The body of the loop of [train], lines 59-78. *)
Definition train_iteration (cls : Methods) (self : Trainer Tensor)
    (st : pyval * list dict) (epoch : Z) : M W (pyval * list dict) :=
  let '(best_loss, records) := st in
  let! start_time := now in
  let! (train_loss, train_ppl) := in_framework (m_train_epoch cls self) in
  let! (valid_loss, valid_ppl) := in_framework (m_valid_epoch cls self) in
  let! lr := in_framework (fw_read (optimizer_lr MainOptimizer)) in
  let! end_time := now in
  let! train_time := lift (measure_time (PFloat start_time) (PFloat end_time)) in
  let record_vals :=
    [VInt epoch; VFloat train_loss; VFloat train_ppl; VFloat valid_loss;
     VFloat valid_ppl; VFloat lr; VStr train_time] in
  let record_dict := dict_of_pairs (combine record_keys record_vals) in
  let records := records ++ [record_dict] in
  let! _ := print_epoch self record_dict in
  let! val_loss := lift (dict_get record_dict "valid_loss") in
  let! _ := in_framework
              (fw_call (CSchedulerStep val_loss) (scheduler_step val_loss)) in
  let! better := lift (py_gt best_loss val_loss) in
  if better : bool then
    let best_loss := val_loss in
    let! model_sd := in_framework (fw_read model_state_dict) in
    let! optim_sd :=
      in_framework (fw_read (optimizer_state_dict MainOptimizer)) in
    let! _ := torch_save {| ck_epoch := epoch;
                            ck_model_state_dict := model_sd;
                            ck_optimizer_state_dict := optim_sd |}
                         (ckpt_path self) in
    ret (best_loss, records)
  else ret (best_loss, records).

(** [Trainer.train], lines 56-82. *)
Definition train (cls : Methods) (self : Trainer Tensor) : M W unit :=
  let! (best_loss, records) :=
    for_each (train_iteration cls self)
             (py_range 1 (n_epochs self + 1)) (VFloat finf, []) in
  json_dump_to (json_of_records records) (record_path self).

End Methods.

(** ** The constructor *)

Section Constructor.

Context {T Tensor Blob : Type} `{!Torch T Tensor Blob}.

(** What an attribute of the instance can hold. *)
Inductive attr : Type :=
| ANum (n : pynum)
| AStr (s : string)
| ABool (b : bool)
| AList (l : list string)
| ALoader (l : list (Batch Tensor))
| AModel
| AScaler
| AOptimizer (o : optimizer_id)
| AScheduler
| AMethod (name : string).

(** [self.__dict__]. *)
Abbreviation instance_dict := (gmap string attr).

(** The names the class body of [Trainer] binds, and those of [object]. *)
Definition Trainer_namespace : list string :=
  ["__init__"; "print_epoch"; "measure_time"; "train"; "train_epoch";
   "valid_epoch"]%string.

Definition object_namespace : list string :=
  ["__class__"; "__delattr__"; "__dict__"; "__dir__"; "__doc__"; "__eq__";
   "__format__"; "__ge__"; "__getattribute__"; "__getstate__"; "__gt__";
   "__hash__"; "__init__"; "__init_subclass__"; "__le__"; "__lt__";
   "__module__"; "__ne__"; "__new__"; "__reduce__"; "__reduce_ex__";
   "__repr__"; "__setattr__"; "__sizeof__"; "__str__"; "__subclasshook__";
   "__weakref__"]%string.

(** [self.name]: the instance dictionary first, then the class and its
    base; a name found in neither raises [AttributeError]. *)
Definition getattr (self : instance_dict) (name : string) : result attr :=
  match self !! name with
  | Some v => Ok v
  | None =>
      if existsb (String.eqb name) (Trainer_namespace ++ object_namespace)
      then Ok (AMethod name)
      else Raise (AttributeError "Trainer" name)
  end.

(** [str(v)] of an attribute, for the f-string of line 32; framework
    objects print as their type name. *)
Definition attr_str `{!Builtins} (v : attr) : string :=
  match v with
  | ANum (PInt z) => pretty z
  | ANum (PFloat x) => float_str x
  | AStr s => s
  | ABool b => if b then "True" else "False"
  | AList _ => "[...]"
  | ALoader _ => "<DataLoader>"
  | AModel => "<Model>"
  | AScaler => "<GradScaler>"
  | AOptimizer _ => "<AdamW>"
  | AScheduler => "<ReduceLROnPlateau>"
  | AMethod _ => "<bound method>"
  end.

(** 0.1 as a binary64 number. *)
Definition f_0_1 : pyfloat := S754_finite false 7205759403792794 (-56).

(** [Trainer.__init__], lines 8-34.  [model] is the model of the framework
    state; the learning rate of the configuration is a float. *)
Definition Trainer___init__ `{!Builtins} (config : Config)
    (train_dataloader valid_dataloader : list (Batch Tensor))
    : M (Framework T Tensor) instance_dict :=
  let self : instance_dict := ∅ in
  let self := <["model" := AModel]> self in
  let self := <["clip" := ANum (cfg_clip config)]> self in
  let self := <["device" := AStr (cfg_device config)]> self in
  let self := <["strategy" := AStr (cfg_strategy config)]> self in
  let self := <["n_epochs" := ANum (PInt (cfg_n_epochs config))]> self in
  let self := <["vocab_size" := ANum (PInt (cfg_vocab_size config))]> self in
  let! _ := fw_call CGradScaler new_grad_scaler in
  let self := <["scaler" := AScaler]> self in
  let self := <["iters_to_accumulate" :=
                  ANum (PInt (cfg_iters_to_accumulate config))]> self in
  let self := <["early_stop" := ABool (cfg_early_stop config)]> self in
  let self := <["patience" := ANum (PInt (cfg_patience config))]> self in
  let self := <["train_dataloader" := ALoader train_dataloader]> self in
  let self := <["valid_dataloader" := ALoader valid_dataloader]> self in
  let! _ := lift (getattr self "model") in
  let lr := fmul (cfg_learning_rate config) f_0_1 in
  let! _ := fw_call (CAdamW BertOptimizer lr) (new_adamw BertOptimizer lr) in
  let self := <["bert_optimizer" := AOptimizer BertOptimizer]> self in
  let! _ := lift (getattr self "model") in
  let lr := cfg_learning_rate config in
  let! _ := fw_call (CAdamW MainOptimizer lr) (new_adamw MainOptimizer lr) in
  let self := <["optimizer" := AOptimizer MainOptimizer]> self in
  let! _ := lift (getattr self "optimizer") in
  let! _ := fw_call (CReduceLROnPlateau MainOptimizer "min")
                    (new_reduce_lr_on_plateau MainOptimizer "min") in
  let self := <["scheduler" := AScheduler]> self in
  let self := <["ckpt_path" := AStr (cfg_ckpt_path config)]> self in
  let! model_name := lift (getattr self "model_name") in
  let self := <["record_path" :=
                  AStr ("ckpt/" +:+ attr_str model_name +:+ ".json")]> self in
  let self := <["record_keys" := AList record_keys]> self in
  ret self.

End Constructor.

(** ** A reference instance

    A small framework and interpreter on which the methods can be run:
    tensors are integers, the model has one integer parameter that each
    optimizer step moves by one, and the loss of a batch is the distance of
    its input from the parameter.  [round] is exact; [exp] is exact at zero
    and a short series elsewhere. *)

Module Reference.

Definition float_of_Z (z : Z) : pyfloat := binary_normalize prec emax z 0 false.

#[export] Instance torch : Torch Z Z Z := {
  tensor_to := fun _ x => x;
  model_train := fun t => t;
  model_eval := fun t => t;
  model_forward := fun _ x _ _ t => (float_of_Z (Z.abs (x - t)), t);
  loss_backward := fun t => t;
  clip_grad_norm_ := fun _ t => t;
  optimizer_step := fun o t => match o with MainOptimizer => t + 1 | _ => t end;
  optimizer_zero_grad := fun _ t => t;
  scheduler_step := fun _ t => t;
  optimizer_lr := fun _ _ => f_0_1;
  model_state_dict := fun t => t;
  optimizer_state_dict := fun _ t => t;
  new_grad_scaler := fun t => t;
  new_adamw := fun _ _ t => t;
  new_reduce_lr_on_plateau := fun _ _ t => t
}.

(** [n / d] rounded to the nearest integer, ties to even ([d] positive). *)
Definition div_half_even (n d : Z) : Z :=
  let q := n / d in
  match 2 * (n mod d) ?= d with
  | Lt => q
  | Gt => q + 1
  | Eq => if Z.even q then q else q + 1
  end.

(** The magnitude of a finite float times [10^digits], rounded to an
    integer, ties to even. *)
Definition scaled (digits : nat) (m : positive) (e : Z) : Z :=
  let k := 10 ^ Z.of_nat digits in
  if 0 <=? e then Zpos m * 2 ^ e * k
  else div_half_even (Zpos m * k) (2 ^ (- e)).

(** [round(x, 3)]: the decimal with three places nearest to the exact value
    of [x], then the float nearest to that decimal. *)
Definition ref_round3 (x : pyfloat) : pyfloat :=
  match x with
  | S754_finite s m e =>
      match scaled 3 m e with
      | Z0 => S754_zero s
      | n => let q := fdiv (Z2SF n) (Z2SF 1000) in if s then SFopp q else q
      end
  | _ => x
  end.

(** [1 + x + x^2/2 + x^3/6] in float arithmetic. *)
Definition ref_exp (x : pyfloat) : option pyfloat :=
  match x with
  | S754_nan => Some S754_nan
  | S754_infinity s => Some (if s then fzero else finf)
  | S754_zero _ => Some fone
  | S754_finite _ _ _ =>
      if flt (float_of_Z 709) x then None
      else
        let x2 := fmul x x in
        let x3 := fmul x2 x in
        Some (fadd (fadd (fadd fone x) (fdiv x2 (float_of_Z 2)))
                   (fdiv x3 (float_of_Z 6)))
  end.

Fixpoint zeros (n : nat) : string :=
  match n with
  | O => EmptyString
  | S k => String "0"%char (zeros k)
  end.

Definition zero_pad (width : nat) (s : string) : string :=
  zeros (width - String.length s) +:+ s.

(** [format(x, '.<d>f')]. *)
Definition ref_format_f (d : nat) (x : pyfloat) : string :=
  let body n :=
    let k := 10 ^ Z.of_nat d in
    pretty (n / k) +:+ "." +:+ zero_pad d (pretty (n mod k)) in
  match x with
  | S754_nan => "nan"
  | S754_infinity s => if s then "-inf" else "inf"
  | S754_zero s => (if s then "-" else "") +:+ body 0
  | S754_finite s m e => (if s then "-" else "") +:+ body (scaled d m e)
  end.

#[export] Instance builtins : Builtins := {
  round3 := ref_round3;
  math_exp := ref_exp;
  format_f := ref_format_f;
  float_str := ref_format_f 6;
  time_time := fun n => float_of_Z (1700000000 + 7 * Z.of_nat n)
}.

Definition batch (x : Z) : Batch Z :=
  {| input_ids := x; token_type_ids := 0; labels := 1 |}.

Definition trainer (n : Z) (train valid : list Z) : Trainer Z :=
  {| clip := PFloat fone; device := "cpu"; strategy := "fine";
     n_epochs := n; vocab_size := 30000; iters_to_accumulate := 4;
     early_stop := true; patience := 1;
     train_dataloader := map batch train;
     valid_dataloader := map batch valid;
     ckpt_path := "ckpt/model.pt"; model_name := "bert" |}.

Definition config : Config :=
  {| cfg_clip := PFloat fone; cfg_device := "cpu"; cfg_strategy := "fine";
     cfg_n_epochs := 3; cfg_vocab_size := 30000;
     cfg_iters_to_accumulate := 4; cfg_early_stop := true;
     cfg_patience := 1; cfg_learning_rate := f_0_1;
     cfg_ckpt_path := "ckpt/model.pt" |}.

Definition fw0 : Framework Z Z := {| fw := 0; calls := [] |}.

Definition world0 : World Z Z Z :=
  {| framework := fw0; ticks := 0; io := []; files := ∅ |}.

End Reference.

(** ** What a run leaves behind *)

Section Observations.

Context {T Tensor Blob : Type} `{!Torch T Tensor Blob}.

(** The framework calls of one training batch. *)
Definition batch_calls (self : Trainer Tensor) (b : Batch Tensor)
    : list (call Tensor) :=
  [CForward true (tensor_to (device self) (input_ids b))
                 (tensor_to (device self) (token_type_ids b))
                 (tensor_to (device self) (labels b));
   CBackward;
   CClipGradNorm (clip self);
   COptimizerStep MainOptimizer;
   COptimizerZeroGrad MainOptimizer].

(** The loss of one training batch and the framework state it leaves. *)
Definition batch_step (self : Trainer Tensor) (b : Batch Tensor) (t : T)
    : pyfloat * T :=
  let '(loss, t1) :=
    model_forward true (tensor_to (device self) (input_ids b))
                       (tensor_to (device self) (token_type_ids b))
                       (tensor_to (device self) (labels b)) t in
  (loss,
   optimizer_zero_grad MainOptimizer
     (optimizer_step MainOptimizer
        (clip_grad_norm_ (clip self) (loss_backward t1)))).

(** The per-batch losses of a training pass that starts in state [t]. *)
Fixpoint batch_losses (self : Trainer Tensor) (bs : list (Batch Tensor))
    (t : T) : list pyfloat :=
  match bs with
  | [] => []
  | b :: bs' =>
      fst (batch_step self b t) :: batch_losses self bs' (snd (batch_step self b t))
  end.

Definition state_after (self : Trainer Tensor) (bs : list (Batch Tensor))
    (t : T) : T :=
  fold_left (fun t b => snd (batch_step self b t)) bs t.

(** The mean of a list of floats, as float arithmetic has it: summed from
    the left, divided by the count. *)
Definition fsum (ls : list pyfloat) : pyfloat := fold_left fadd ls fzero.

Definition fmean (ls : list pyfloat) : pyfloat :=
  fdiv (fsum ls) (binary_normalize prec emax (Z.of_nat (length ls)) 0 false).

(** The framework state when the loop of [train_epoch] is over. *)
Definition after_training (self : Trainer Tensor) (s : Framework T Tensor) : Framework T Tensor :=
  {| fw := state_after self (train_dataloader self) (model_train (fw s));
     calls := calls s ++
       CModelTrain :: flat_map (batch_calls self) (train_dataloader self) |}.

(** The framework state when the loop of [valid_epoch] is over. *)
Definition after_validation (self : Trainer Tensor) (s : Framework T Tensor) : Framework T Tensor :=
  fold_left
    (fun s b =>
       {| fw := snd (model_forward false
                       (tensor_to (device self) (input_ids b))
                       (tensor_to (device self) (token_type_ids b))
                       (tensor_to (device self) (labels b)) (fw s));
          calls := calls s ++
            [CForward false (tensor_to (device self) (input_ids b))
                            (tensor_to (device self) (token_type_ids b))
                            (tensor_to (device self) (labels b))] |})
    (valid_dataloader self)
    {| fw := model_eval (fw s); calls := calls s ++ [CModelEval] |}.

Definition count_calls (p : call Tensor -> bool) (cs : list (call Tensor))
    : nat :=
  length (List.filter p cs).

Definition is_main_step (c : call Tensor) : bool :=
  match c with COptimizerStep MainOptimizer => true | _ => false end.

Definition is_bert_step (c : call Tensor) : bool :=
  match c with COptimizerStep BertOptimizer => true | _ => false end.

(** The epochs at which a checkpoint was saved, and the documents dumped. *)
Fixpoint saved_epochs (evs : list (io_event Blob)) : list Z :=
  match evs with
  | [] => []
  | IOTorchSave _ c :: evs' => ck_epoch c :: saved_epochs evs'
  | _ :: evs' => saved_epochs evs'
  end.

Fixpoint dumps (evs : list (io_event Blob)) : list (string * json) :=
  match evs with
  | [] => []
  | IOJsonDump path j :: evs' => (path, j) :: dumps evs'
  | _ :: evs' => dumps evs'
  end.


End Observations.

(** The float under a key of a dumped record. *)
Definition json_float (k : string) (j : json) : option pyfloat :=
  match j with
  | JObj members =>
      match find (fun kv => String.eqb (fst kv) k) members with
      | Some (_, JNum (PFloat x)) => Some x
      | _ => None
      end
  | _ => None
  end.

Definition json_keys (j : json) : list string :=
  match j with
  | JObj members => map fst members
  | _ => []
  end.

Definition json_member (k : string) (j : json) : option json :=
  match j with
  | JObj members =>
      match find (fun kv => String.eqb (fst kv) k) members with
      | Some (_, v) => Some v
      | None => None
      end
  | _ => None
  end.

(** The running best of line 73-74: the smaller of the two, the old one when
    they do not compare. *)
Definition fmin (best v : pyfloat) : pyfloat := if flt v best then v else best.


(** A sequence of floats in which each one is below the one before. *)
Fixpoint strictly_decreasing (vs : list pyfloat) : Prop :=
  match vs with
  | [] => True
  | v :: vs' =>
      match vs' with
      | [] => True
      | v' :: _ => flt v' v = true /\ strictly_decreasing vs'
      end
  end.

(** Functional updates of a trainer's unused fields. *)
Definition with_accumulation {Tensor} (k : Z) (self : Trainer Tensor)
    : Trainer Tensor :=
  {| clip := clip self; device := device self; strategy := strategy self;
     n_epochs := n_epochs self; vocab_size := vocab_size self;
     iters_to_accumulate := k;
     early_stop := early_stop self; patience := patience self;
     train_dataloader := train_dataloader self;
     valid_dataloader := valid_dataloader self;
     ckpt_path := ckpt_path self; model_name := model_name self |}.


(** ** What one epoch leaves behind *)

(** The dictionary line 64 builds. *)
Definition mk_record (epoch : Z) (train_loss train_ppl valid_loss valid_ppl
    lr : pyfloat) (train_time : string) : dict :=
  [("epoch", VInt epoch); ("train_loss", VFloat train_loss);
   ("train_ppl", VFloat train_ppl); ("valid_loss", VFloat valid_loss);
   ("valid_ppl", VFloat valid_ppl); ("learning_rate", VFloat lr);
   ("train_time", VStr train_time)]%string.

(** What an epoch observes: the results of the two passes, the learning
    rate, the elapsed time and the state dictionaries a checkpoint would
    hold. *)
Record epoch_obs (Blob : Type) : Type := {
  o_train_loss : pyfloat;
  o_train_ppl : pyfloat;
  o_valid_loss : pyfloat;
  o_valid_ppl : pyfloat;
  o_lr : pyfloat;
  o_time : string;
  o_model_sd : Blob;
  o_optim_sd : Blob
}.
Arguments o_train_loss {Blob} _.
Arguments o_train_ppl {Blob} _.
Arguments o_valid_loss {Blob} _.
Arguments o_valid_ppl {Blob} _.
Arguments o_lr {Blob} _.
Arguments o_time {Blob} _.
Arguments o_model_sd {Blob} _.
Arguments o_optim_sd {Blob} _.

Section EpochObservations.

Context {Tensor Blob : Type} `{!Builtins}.

Definition obs_record (epoch : Z) (o : epoch_obs Blob) : dict :=
  mk_record epoch (o_train_loss o) (o_train_ppl o) (o_valid_loss o)
            (o_valid_ppl o) (o_lr o) (o_time o).

(** The three texts [print_epoch] prints. *)
Definition epoch_lines (self : Trainer Tensor) (epoch : Z) (o : epoch_obs Blob)
    : list string :=
  [str_replace
     ("Epoch " +:+ pretty epoch +:+ "/" +:+ pretty (n_epochs self) +:+ " | "
      +:+ spaces 14 +:+ "Time: " +:+ o_time o)
     (spaces 14) "";
   str_replace
     ("  >> Train Loss: " +:+ format_f 3 (o_train_loss o) +:+ " | "
      +:+ spaces 14 +:+ "Train PPL: " +:+ format_f 2 (o_train_ppl o))
     (spaces 14) "";
   str_replace
     ("  >> Valid Loss: " +:+ format_f 3 (o_valid_loss o) +:+ " | "
      +:+ spaces 14 +:+ "Valid PPL: " +:+ format_f 2 (o_valid_ppl o)
      +:+ newline)
     (spaces 14) ""].

(** What one epoch does to the outside, given the best loss before it. *)
Definition epoch_events (self : Trainer Tensor) (best : pyfloat) (epoch : Z)
    (o : epoch_obs Blob) : list (io_event Blob) :=
  map IOPrint (epoch_lines self epoch o) ++
  if flt (o_valid_loss o) best
  then [IOTorchSave (ckpt_path self)
          {| ck_epoch := epoch;
             ck_model_state_dict := o_model_sd o;
             ck_optimizer_state_dict := o_optim_sd o |}]
  else [].

(** What a sequence of epochs does to the outside. *)
Fixpoint run_events (self : Trainer Tensor) (best : pyfloat) (epochs : list Z)
    (obs : list (epoch_obs Blob)) : list (io_event Blob) :=
  match epochs, obs with
  | e :: epochs', o :: obs' =>
      epoch_events self best e o ++
      run_events self (fmin best (o_valid_loss o)) epochs' obs'
  | _, _ => []
  end.

End EpochObservations.

(** The validation losses of a dumped record list. *)
Definition dumped_floats (k : string) (records : list json)
    : list (option pyfloat) :=
  map (json_float k) records.

(** The epochs, out of [epochs], whose loss in [vs] is below the best loss
    before them. *)
Fixpoint improving (best : pyfloat) (epochs : list Z) (vs : list pyfloat)
    : list Z :=
  match epochs, vs with
  | e :: epochs', v :: vs' =>
      (if flt v best then [e] else []) ++ improving (fmin best v) epochs' vs'
  | _, _ => []
  end.

(** The path an event writes to. *)
Definition written_path {Blob} (ev : io_event Blob) : option string :=
  match ev with
  | IOPrint _ => None
  | IOTorchSave path _ => Some path
  | IOJsonDump path _ => Some path
  end.

(** A class whose validation pass is scripted: it reports the loss
    [10 - t], where [t] is the parameter of the reference model, and leaves
    the framework alone. *)
Definition scripted_class : Methods (T := Z) (Tensor := Z) :=
  {| m_train_epoch := @train_epoch Z Z Z Reference.torch Reference.builtins;
     m_valid_epoch := fun _ s =>
       Return (Reference.float_of_Z (10 - fw s), fone) s |}.

(** What a run did to the outside: the events of the final world that the
    initial one does not have. *)
Definition new_events {T Tensor Blob} (w w' : World T Tensor Blob)
    : list (io_event Blob) :=
  drop (length (io w)) (io w').

(** The records of the one document a run dumped. *)
Definition dumped_records {Blob} (evs : list (io_event Blob)) : list json :=
  match dumps evs with
  | [(_, JArr records)] => records
  | _ => []
  end.

(** The floats the dumped records hold under a key, in order. *)
Definition recorded_floats {Blob} (k : string) (evs : list (io_event Blob))
    : list pyfloat :=
  omap (json_float k) (dumped_records evs).

(** How many events write to a path. *)
Definition writes_to {Blob} (path : string) (evs : list (io_event Blob))
    : nat :=
  length (List.filter
            (fun ev => match written_path ev with
                       | Some p => String.eqb p path
                       | None => false
                       end) evs).

(** ** More observations *)

(** The framework call of one validation batch. *)
Definition valid_call {Tensor} `{!Torch T Tensor Blob} (self : Trainer Tensor)
    (b : Batch Tensor) : call Tensor :=
  CForward false (tensor_to (device self) (input_ids b))
                 (tensor_to (device self) (token_type_ids b))
                 (tensor_to (device self) (labels b)).


Definition is_scheduler_step {Tensor} (c : call Tensor) : bool :=
  match c with CSchedulerStep _ => true | _ => false end.

(** The file system after a list of events, each write replacing its file. *)
Definition replay {Blob} (evs : list (io_event Blob))
    (fs : gmap string (file Blob)) : gmap string (file Blob) :=
  fold_left
    (fun fs ev =>
       match ev with
       | IOPrint _ => fs
       | IOTorchSave path c => <[path := FCheckpoint c]> fs
       | IOJsonDump path j => <[path := FJson j]> fs
       end)
    evs fs.


(** The losses, out of [vs], that are below the best loss before them. *)
Fixpoint improving_losses (best : pyfloat) (vs : list pyfloat)
    : list pyfloat :=
  match vs with
  | [] => []
  | v :: vs' =>
      (if flt v best then [v] else []) ++ improving_losses (fmin best v) vs'
  end.

(** The losses recorded for a list of epochs (counted from 1). *)
Definition losses_at (epochs : list Z) (vs : list pyfloat) : list pyfloat :=
  omap (fun e => vs !! Z.to_nat (e - 1)) epochs.

(** The metrics the scheduler was stepped with, in order. *)
Fixpoint scheduler_metrics {Tensor} (cs : list (call Tensor)) : list pyval :=
  match cs with
  | [] => []
  | CSchedulerStep v :: cs' => v :: scheduler_metrics cs'
  | _ :: cs' => scheduler_metrics cs'
  end.

(** A record [print_epoch] can print: the two keys it shows as they are, and
    a number that converts to float under each of the four keys it formats. *)
Definition formattable (d : dict) (k : string) : Prop :=
  exists (n : pynum) (x : pyfloat),
    dict_get d k = Ok (VNum n) /\ as_float n = Ok x.

Definition printable (d : dict) : Prop :=
  (exists v, dict_get d "epoch" = Ok v)
  /\ (exists v, dict_get d "train_time" = Ok v)
  /\ formattable d "train_loss" /\ formattable d "train_ppl"
  /\ formattable d "valid_loss" /\ formattable d "valid_ppl".

(** ** Exact minutes and seconds of a float

    A finite float is the number [m * 2^e]; with [e <= 0] its integer part
    is [m / 2^(-e)]. *)




(** ** Runs of spaces

    [print_epoch] removes every run of 14 spaces from its texts; what is
    left of a text depends on the runs of spaces its fields bring in. *)

(** No run of spaces in [s] reaches [n], counting [run] spaces just before
    [s]. *)
Fixpoint runs_below_from (n run : nat) (s : string) : bool :=
  match s with
  | EmptyString => true
  | String c s' =>
      if Ascii.eqb c " "
      then (S run <? n)%nat && runs_below_from n (S run) s'
      else runs_below_from n 0 s'
  end.

Definition runs_below (n : nat) (s : string) : bool := runs_below_from n 0 s.

(** The text is empty or starts with a character that is not a space. *)
Definition starts_nonspace (s : string) : bool :=
  match s with
  | EmptyString => true
  | String c _ => negb (Ascii.eqb c " ")
  end.

Section PlainLines.

Context {Tensor Blob : Type} `{!Builtins}.

(** The fields an epoch brings to the three texts, none with 12 spaces in a
    row. *)
Definition compact_fields (o : epoch_obs Blob) : bool :=
  runs_below 12 (o_time o)
  && runs_below 12 (format_f 3 (o_train_loss o))
  && runs_below 12 (format_f 2 (o_train_ppl o))
  && runs_below 12 (format_f 3 (o_valid_loss o))
  && runs_below 12 (format_f 2 (o_valid_ppl o)).

(** The three texts as they read on the terminal, each on one line, the
    last followed by an empty line. *)
Definition plain_lines (self : Trainer Tensor) (epoch : Z) (o : epoch_obs Blob)
    : list string :=
  ["Epoch " +:+ pretty epoch +:+ "/" +:+ pretty (n_epochs self)
     +:+ " | Time: " +:+ o_time o;
   "  >> Train Loss: " +:+ format_f 3 (o_train_loss o)
     +:+ " | Train PPL: " +:+ format_f 2 (o_train_ppl o);
   "  >> Valid Loss: " +:+ format_f 3 (o_valid_loss o)
     +:+ " | Valid PPL: " +:+ format_f 2 (o_valid_ppl o) +:+ newline].

End PlainLines.

(** * Verification *)

(** ** The constructor *)

Section ConstructorFacts.

Context {T Tensor Blob : Type} `{!Torch T Tensor Blob} `{!Builtins}.

(** C2: for every configuration, data loaders and framework state, the
    constructor raises [AttributeError] for [model_name] on line 32, after
    the scaler, the two optimizers and the scheduler have been created: no
    trainer is ever returned, so [train] cannot be called on one. *)
Theorem init_raises_attribute_error
    (config : Config) (tdl vdl : list (Batch Tensor)) (s : Framework T Tensor) :
  exists s',
    Trainer___init__ config tdl vdl s
      = Throw (AttributeError "Trainer" "model_name") s'
    /\ calls s' = calls s ++
         [CGradScaler;
          CAdamW BertOptimizer (fmul (cfg_learning_rate config) f_0_1);
          CAdamW MainOptimizer (cfg_learning_rate config);
          CReduceLROnPlateau MainOptimizer "min"].
Proof.
  unfold Trainer___init__, bind, fw_call, lift, getattr.
  rewrite !lookup_insert. simpl.
  eexists. split; [reflexivity|].
  simpl. rewrite <- !app_assoc. reflexivity.
Qed.

End ConstructorFacts.

(** ** Computations *)

Section MonadFacts.

Context {S : Type}.

Lemma bind_Return {A B} (c : M S A) (k : A -> M S B) s a s' :
  c s = Return a s' -> bind c k s = k a s'.
Proof. unfold bind. now intros ->. Qed.

Lemma bind_Throw {A B} (c : M S A) (k : A -> M S B) s e s' :
  c s = Throw e s' -> bind c k s = Throw e s'.
Proof. unfold bind. now intros ->. Qed.

Lemma bind_Return_inv {A B} (c : M S A) (k : A -> M S B) s b s'' :
  bind c k s = Return b s'' ->
  exists a s', c s = Return a s' /\ k a s' = Return b s''.
Proof.
  unfold bind. destruct (c s) as [a s'|e s']; [|discriminate].
  intros Hk. now exists a, s'.
Qed.

Lemma for_each_app {A B} (body : A -> B -> M S A) xs ys acc s :
  for_each body (xs ++ ys) acc s
  = bind (for_each body xs acc) (for_each body ys) s.
Proof.
  revert acc s. induction xs as [|x xs IH]; intros acc s; simpl.
  - reflexivity.
  - unfold bind. destruct (body acc x s) as [a s'|e s']; [|reflexivity].
    rewrite IH. reflexivity.
Qed.

End MonadFacts.

(** ** The two passes *)

Section PassFacts.

Context {T Tensor Blob : Type} `{!Torch T Tensor Blob} `{!Builtins}.

Implicit Types (self : Trainer Tensor) (s : Framework T Tensor).

(** One validation batch: one forward call without gradients; the total is
    handed back unchanged. *)
Lemma valid_batch_eq self acc b s :
  valid_batch self acc b s
  = Return acc
      {| fw := snd (model_forward false
                      (tensor_to (device self) (input_ids b))
                      (tensor_to (device self) (token_type_ids b))
                      (tensor_to (device self) (labels b)) (fw s));
         calls := calls s ++
           [CForward false (tensor_to (device self) (input_ids b))
                           (tensor_to (device self) (token_type_ids b))
                           (tensor_to (device self) (labels b))] |}.
Proof.
  unfold valid_batch, bind, forward, ret. cbv zeta.
  destruct (model_forward _ _ _ _ (fw s)) as [loss t]. reflexivity.
Qed.

(** The validation loop returns the total it was given, whatever the
    batches and the model. *)
Lemma valid_loop self bs acc s :
  exists s',
    for_each (valid_batch self) bs acc s = Return acc s'.
Proof.
  revert s. induction bs as [|b bs IH]; intros s; simpl.
  - now exists s.
  - rewrite (bind_Return _ _ _ _ _ (valid_batch_eq self acc b s)). apply IH.
Qed.

Lemma truediv_zero_int (n : Z) :
  n <> 0 -> (0 < n) -> py_truediv (PInt 0) (PInt n) = Ok fzero.
Proof.
  intros Hn Hpos. unfold py_truediv.
  destruct (Z.eqb_spec n 0); [contradiction|].
  destruct n; try lia. reflexivity.
Qed.

Lemma truediv_by_zero (a : pynum) :
  (a = PInt 0 \/ exists x, a = PFloat x) ->
  py_truediv a (PInt 0) = Raise ZeroDivisionError.
Proof.
  intros [->|[x ->]]; reflexivity.
Qed.

(** C1, as amended: whenever the validation data source has at least one
    batch, [valid_epoch] returns loss 0.0 and perplexity 1.0, whatever losses
    the model computes, given that the interpreter has [round(0.0, 3) = 0.0],
    [math.exp(0.0) = 1.0] and [round(1.0, 3) = 1.0]. *)
Theorem valid_epoch_zero_loss self s :
  round3 fzero = fzero ->
  math_exp fzero = Some fone ->
  round3 fone = fone ->
  valid_dataloader self <> [] ->
  exists s', valid_epoch self s = Return (fzero, fone) s'.
Proof.
  intros Hr0 He0 Hr1 Hne.
  unfold valid_epoch.
  rewrite (bind_Return (fw_call CModelEval model_eval) _ s tt _ eq_refl).
  destruct (valid_loop self (valid_dataloader self) (PInt 0)
              {| fw := model_eval (fw s); calls := calls s ++ [CModelEval] |})
    as [s' Hloop].
  rewrite (bind_Return _ _ _ _ _ Hloop).
  rewrite truediv_zero_int.
  2,3: destruct (valid_dataloader self); [contradiction|simpl; lia].
  unfold bind, lift, exp_or_raise, ret.
  rewrite Hr0, He0, Hr1. now exists s'.
Qed.

End PassFacts.

(** ** Facts about binary64 rounding *)

Section FloatFacts.

Lemma digits2_pos_bounds (p : positive) :
  2 ^ (Zpos (digits2_pos p) - 1) <= Zpos p < 2 ^ Zpos (digits2_pos p).
Proof.
  induction p as [p IH|p IH|]; simpl digits2_pos.
  - rewrite Pos2Z.inj_succ.
    replace (Z.succ (Zpos (digits2_pos p)) - 1) with (Zpos (digits2_pos p)) by lia.
    rewrite Z.pow_succ_r by lia.
    replace (Zpos (digits2_pos p)) with (Z.succ (Zpos (digits2_pos p) - 1)) at 1 by lia.
    rewrite Z.pow_succ_r by lia. lia.
  - rewrite Pos2Z.inj_succ.
    replace (Z.succ (Zpos (digits2_pos p)) - 1) with (Zpos (digits2_pos p)) by lia.
    rewrite Z.pow_succ_r by lia.
    replace (Zpos (digits2_pos p)) with (Z.succ (Zpos (digits2_pos p) - 1)) at 1 by lia.
    rewrite Z.pow_succ_r by lia. lia.
  - simpl. lia.
Qed.

Lemma shr_1_m (mrs : shr_record) :
  0 <= shr_m mrs -> shr_m (shr_1 mrs) = shr_m mrs / 2.
Proof.
  destruct mrs as [m r s]. simpl. intros Hm.
  destruct m as [|[p|p|]|p]; try lia; try reflexivity.
  - change (Zpos p = Zpos p~1 / 2).
    apply Z.div_unique with (r := 1); lia.
  - change (Zpos p = Zpos p~0 / 2).
    apply Z.div_unique with (r := 0); lia.
Qed.

Lemma shr_1_nonneg (mrs : shr_record) :
  0 <= shr_m mrs -> 0 <= shr_m (shr_1 mrs).
Proof.
  intros Hm. rewrite shr_1_m by assumption. apply Z.div_pos; lia.
Qed.

Lemma iter_shr_m (n : positive) (mrs : shr_record) :
  0 <= shr_m mrs ->
  shr_m (SpecFloat.iter_pos shr_1 n mrs) = shr_m mrs / 2 ^ Zpos n
  /\ 0 <= shr_m (SpecFloat.iter_pos shr_1 n mrs).
Proof.
  revert mrs. induction n as [n IH|n IH|]; intros mrs Hm; simpl SpecFloat.iter_pos.
  - destruct (IH (shr_1 mrs) (shr_1_nonneg _ Hm)) as [E1 P1].
    destruct (IH _ P1) as [E2 P2]. split; [|assumption].
    rewrite E2, E1, shr_1_m by assumption.
    rewrite !Z.div_div by (try apply Z.pow_pos_nonneg; lia).
    f_equal. replace (Zpos n~1) with (1 + Zpos n + Zpos n) by lia.
    rewrite !Z.pow_add_r by lia. change (2 ^ 1) with 2. ring.
  - destruct (IH mrs Hm) as [E1 P1].
    destruct (IH _ P1) as [E2 P2]. split; [|assumption].
    rewrite E2, E1.
    rewrite !Z.div_div by (try apply Z.pow_pos_nonneg; lia).
    f_equal. replace (Zpos n~0) with (Zpos n + Zpos n) by lia.
    rewrite !Z.pow_add_r by lia. ring.
  - split; [|now apply shr_1_nonneg].
    rewrite shr_1_m by assumption. reflexivity.
Qed.

Lemma shr_record_of_loc_m (m : Z) (l : location) :
  shr_m (shr_record_of_loc m l) = m.
Proof. destruct l as [|[]]; reflexivity. Qed.

Lemma loc_of_shr_record_of_loc (m : Z) (l : location) :
  loc_of_shr_record (shr_record_of_loc m l) = l.
Proof. destruct l as [|[]]; reflexivity. Qed.

(** A positive mantissa stays positive through the shift of [shr_fexp], as
    long as its exponent is not below the smallest one. *)
Lemma shr_fexp_pos (m e : Z) (l : location) :
  0 < m -> emin64 <= e ->
  0 < shr_m (fst (shr_fexp prec emax m e l))
  /\ emin64 <= snd (shr_fexp prec emax m e l).
Proof.
  intros Hm He. unfold shr_fexp, shr.
  destruct m as [|p|p]; try lia.
  simpl Zdigits2.
  pose proof (digits2_pos_bounds p) as [Hlo Hhi].
  set (d := Zpos (digits2_pos p)) in *.
  assert (Hd : 0 < d) by (unfold d; lia).
  destruct (fexp prec emax (d + e) - e) as [|n|n] eqn:En; simpl fst; simpl snd.
  - rewrite shr_record_of_loc_m. lia.
  - destruct (iter_shr_m n (shr_record_of_loc (Zpos p) l)) as [E _].
    { rewrite shr_record_of_loc_m. lia. }
    rewrite E, shr_record_of_loc_m.
    assert (Hn : Zpos n <= d - 1).
    { unfold fexp, emin64, emin, prec, emax in *. lia. }
    split.
    + apply Z.div_str_pos. split; [apply Z.pow_pos_nonneg; lia|].
      apply Z.le_trans with (2 ^ (d - 1)); [|assumption].
      apply Z.pow_le_mono_r; lia.
    + unfold fexp, emin64, emin, prec, emax in *. lia.
  - rewrite shr_record_of_loc_m. lia.
Qed.

Lemma round_nearest_even_ge (m : Z) (l : location) :
  m <= round_nearest_even m l.
Proof.
  destruct l as [|[]]; simpl; try lia. destruct (Z.even m); lia.
Qed.

(** Rounding a positive mantissa never gives a zero or a NaN. *)
Lemma binary_round_aux_pos (s : bool) (m e : Z) (l : location) :
  0 < m -> emin64 <= e ->
  match binary_round_aux prec emax s m e l with
  | S754_finite s' _ _ | S754_infinity s' => s' = s
  | _ => False
  end.
Proof.
  intros Hm He. unfold binary_round_aux.
  destruct (shr_fexp_pos m e l Hm He) as [P1 Q1].
  destruct (shr_fexp prec emax m e l) as [mrs' e'] eqn:E1. simpl in P1, Q1.
  pose proof (round_nearest_even_ge (shr_m mrs') (loc_of_shr_record mrs')) as Hr.
  destruct (shr_fexp_pos (round_nearest_even (shr_m mrs') (loc_of_shr_record mrs'))
              e' loc_Exact ltac:(lia) Q1) as [P2 Q2].
  destruct (shr_fexp prec emax _ e' loc_Exact) as [mrs'' e''] eqn:E2.
  simpl in P2, Q2.
  destruct (shr_m mrs'') as [|p|p]; try lia.
  destruct (e'' <=? emax - prec); reflexivity.
Qed.

Lemma shl_align_exponent (m : positive) (e e' : Z) :
  emin64 <= e -> emin64 <= e' -> emin64 <= snd (shl_align m e e').
Proof.
  intros. unfold shl_align. destruct (e' - e); simpl; assumption.
Qed.

Lemma binary_round_pos (s : bool) (m : positive) :
  match binary_round prec emax s m 0 with
  | S754_finite s' _ _ | S754_infinity s' => s' = s
  | _ => False
  end.
Proof.
  unfold binary_round.
  pose proof (shl_align_exponent m 0 (fexp prec emax (Zpos (digits2_pos m) + 0))) as H.
  destruct (shl_align m 0 _) as [mz ez]. simpl in H.
  apply binary_round_aux_pos; [lia|].
  apply H; unfold fexp, emin64, emin, prec, emax; lia.
Qed.

(** [float(n)] of a nonzero integer is not zero. *)
Lemma int_to_float_nonzero (z : Z) (y : pyfloat) :
  z <> 0 -> int_to_float z = Ok y -> f_is_zero y = false.
Proof.
  intros Hz. unfold int_to_float, binary_normalize.
  destruct z as [|p|p]; [contradiction| |].
  - pose proof (binary_round_pos false p) as H.
    destruct (binary_round prec emax false p 0); simpl; try contradiction;
      intros [= <-]; reflexivity.
  - pose proof (binary_round_pos true p) as H.
    destruct (binary_round prec emax true p 0); simpl; try contradiction;
      intros [= <-]; reflexivity.
Qed.

End FloatFacts.

(** ** The training pass *)

Section TrainPassFacts.

Context {T Tensor Blob : Type} `{!Torch T Tensor Blob} `{!Builtins}.

Implicit Types (self : Trainer Tensor) (s : Framework T Tensor).

Lemma py_add_float (acc : pynum) (a x : pyfloat) :
  as_float acc = Ok a -> py_add acc (PFloat x) = Ok (PFloat (fadd a x)).
Proof.
  intros Ha. unfold py_add, py_arith.
  destruct acc as [z|y]; cbn [as_float] in *;
    [rewrite Ha|injection Ha as ->]; reflexivity.
Qed.

(** One training batch: forward, backward, clip, one step of the main
    optimizer, zeroed gradients; the loss is added to the total. *)
Lemma train_batch_eq self acc a b s :
  as_float acc = Ok a ->
  train_batch self acc b s
  = Return (PFloat (fadd a (fst (batch_step self b (fw s)))))
      {| fw := snd (batch_step self b (fw s));
         calls := calls s ++ batch_calls self b |}.
Proof.
  intros Ha.
  unfold train_batch, batch_step, batch_calls, bind, forward, fw_call, lift.
  cbv zeta.
  destruct (model_forward _ _ _ _ (fw s)) as [loss t]. simpl.
  rewrite (py_add_float acc a loss Ha).
  rewrite <- !app_assoc. reflexivity.
Qed.

Lemma train_loop self bs acc a s :
  as_float acc = Ok a ->
  for_each (train_batch self) bs acc s
  = Return
      (match bs with
       | [] => acc
       | _ => PFloat (fold_left fadd (batch_losses self bs (fw s)) a)
       end)
      {| fw := state_after self bs (fw s);
         calls := calls s ++ flat_map (batch_calls self) bs |}.
Proof.
  revert acc a s. induction bs as [|b bs IH]; intros acc a s Ha.
  - simpl. unfold ret. rewrite app_nil_r. now destruct s.
  - cbn [for_each].
    rewrite (bind_Return _ _ _ _ _ (train_batch_eq self acc a b s Ha)).
    rewrite (IH (PFloat (fadd a (fst (batch_step self b (fw s)))))
                (fadd a (fst (batch_step self b (fw s))))) by reflexivity.
    cbn [fw calls flat_map batch_losses fold_left state_after].
    rewrite <- app_assoc.
    destruct bs; reflexivity.
Qed.

Lemma batch_losses_length self bs t :
  length (batch_losses self bs t) = length bs.
Proof.
  revert t. induction bs as [|b bs IH]; intros t; simpl; [reflexivity|].
  now rewrite IH.
Qed.

(** What [train_epoch] comes to, case by case. *)
Lemma train_epoch_eq self s :
  train_epoch self s =
  let ls := batch_losses self (train_dataloader self) (model_train (fw s)) in
  match train_dataloader self with
  | [] => Throw ZeroDivisionError (after_training self s)
  | _ =>
      match int_to_float (Z.of_nat (length ls)) with
      | Raise e => Throw e (after_training self s)
      | Ok _ =>
          match math_exp (round3 (fmean ls)) with
          | Some e =>
              Return (round3 (fmean ls), round3 e) (after_training self s)
          | None => Throw OverflowError (after_training self s)
          end
      end
  end.
Proof.
  unfold train_epoch.
  rewrite (bind_Return (fw_call CModelTrain model_train) _ s tt _ eq_refl).
  rewrite (bind_Return _ _ _ _ _
             (train_loop self (train_dataloader self) (PInt 0) fzero _ eq_refl)).
  cbn [fw calls]. cbv zeta.
  rewrite batch_losses_length.
  replace {| fw := state_after self (train_dataloader self) (model_train (fw s));
             calls := (calls s ++ [CModelTrain]) ++
                      flat_map (batch_calls self) (train_dataloader self) |}
    with (after_training self s)
    by (unfold after_training; now rewrite <- app_assoc).
  destruct (train_dataloader self) as [|b bs] eqn:Ebs.
  - reflexivity.
  - set (ls := batch_losses self (b :: bs) (model_train (fw s))).
    assert (Hlen : length ls = length (b :: bs))
      by apply batch_losses_length.
    unfold bind at 1, lift at 1, py_truediv. cbn [as_float rbind].
    destruct (int_to_float (Z.of_nat (length (b :: bs)))) as [fb|e] eqn:Efb;
      [|reflexivity].
    cbn [rbind].
    assert (Hnz : Z.of_nat (length (b :: bs)) <> 0) by (cbn [length]; lia).
    rewrite (int_to_float_nonzero _ _ Hnz Efb).
    assert (Hmean : fdiv (fold_left fadd ls fzero) fb = fmean ls).
    { unfold fmean, fsum. rewrite Hlen. f_equal.
      unfold int_to_float in Efb.
      destruct (f_is_inf _); [discriminate|]. now injection Efb. }
    rewrite Hmean.
    unfold bind, lift, exp_or_raise, ret.
    destruct (math_exp (round3 (fmean ls))); reflexivity.
Qed.

(** C7: whatever the pass returns or raises, the calls it made to the
    framework are one switch to training mode and then, for each batch in
    order, forward, backward, clip, one step of the main optimizer and one
    zeroing of its gradients.  The main optimizer is therefore stepped once
    per batch, the second optimizer never, the parameters are those left by
    one update per batch, and the configured accumulation interval changes
    nothing. *)
Theorem train_epoch_steps_once_per_batch self s :
  let s' := final_state (train_epoch self s) in
  calls s' = calls s ++
    CModelTrain :: flat_map (batch_calls self) (train_dataloader self)
  /\ count_calls is_main_step (calls s')
     = (count_calls is_main_step (calls s) + length (train_dataloader self))%nat
  /\ count_calls is_bert_step (calls s') = count_calls is_bert_step (calls s)
  /\ fw s' = state_after self (train_dataloader self) (model_train (fw s))
  /\ forall k, train_epoch (with_accumulation k self) s = train_epoch self s.
Proof.
  assert (Hfin : final_state (train_epoch self s) = after_training self s).
  { rewrite train_epoch_eq. cbv zeta.
    destruct (train_dataloader self); [reflexivity|].
    destruct (int_to_float _); [|reflexivity].
    destruct (math_exp _); reflexivity. }
  cbv zeta. rewrite Hfin. unfold after_training. cbn [fw calls].
  assert (Hcount : forall p bs k,
    (forall b, count_calls p (batch_calls self b) = k) ->
    count_calls p (flat_map (batch_calls self) bs) = (length bs * k)%nat).
  { intros p bs k Hp. induction bs as [|b bs IH]; [reflexivity|].
    cbn [flat_map]. unfold count_calls in *.
    rewrite List.filter_app, length_app, IH, Hp. reflexivity. }
  repeat split.
  - unfold count_calls at 1.
    rewrite List.filter_app, length_app. f_equal.
    change (CModelTrain :: ?l) with ([CModelTrain] ++ l).
    rewrite List.filter_app, length_app.
    fold (count_calls is_main_step (flat_map (batch_calls self) (train_dataloader self))).
    rewrite (Hcount _ _ 1%nat) by reflexivity.
    unfold count_calls. simpl. lia.
  - unfold count_calls at 1.
    rewrite List.filter_app, length_app.
    change (CModelTrain :: ?l) with ([CModelTrain] ++ l).
    rewrite List.filter_app, length_app.
    fold (count_calls is_bert_step (flat_map (batch_calls self) (train_dataloader self))).
    rewrite (Hcount _ _ 0%nat) by reflexivity.
    unfold count_calls. simpl. lia.
Qed.

(** C6: over a data source of at least one batch, a pair returned by
    [train_epoch] has as loss the mean of the per-batch losses rounded to 3
    decimals and as perplexity [exp] of that returned loss rounded to 3
    decimals; and the pair is returned whenever the batch count converts to
    a float and [exp] of the loss does not overflow. *)
Theorem train_epoch_loss_and_ppl self s :
  train_dataloader self <> [] ->
  let ls := batch_losses self (train_dataloader self) (model_train (fw s)) in
  (forall l p s',
      train_epoch self s = Return (l, p) s' ->
      l = round3 (fmean ls)
      /\ exists e, math_exp l = Some e /\ p = round3 e)
  /\ (forall fb e,
      int_to_float (Z.of_nat (length ls)) = Ok fb ->
      math_exp (round3 (fmean ls)) = Some e ->
      exists s',
        train_epoch self s = Return (round3 (fmean ls), round3 e) s').
Proof.
  intros Hne ls. rewrite train_epoch_eq. cbv zeta. fold ls.
  destruct (train_dataloader self) as [|b bs]; [contradiction|].
  split.
  - intros l p s'.
    destruct (int_to_float _); [|discriminate].
    destruct (math_exp (round3 (fmean ls))) as [e|] eqn:Ee; [|discriminate].
    intros [= <- <- <-]. split; [reflexivity|]. now exists e.
  - intros fb e -> ->. eexists. reflexivity.
Qed.

Lemma valid_loop_eq self bs acc s :
  for_each (valid_batch self) bs acc s
  = Return acc
      (fold_left
         (fun s b =>
            {| fw := snd (model_forward false
                            (tensor_to (device self) (input_ids b))
                            (tensor_to (device self) (token_type_ids b))
                            (tensor_to (device self) (labels b)) (fw s));
               calls := calls s ++
                 [CForward false (tensor_to (device self) (input_ids b))
                                 (tensor_to (device self) (token_type_ids b))
                                 (tensor_to (device self) (labels b))] |})
         bs s).
Proof.
  revert s. induction bs as [|b bs IH]; intros s; [reflexivity|].
  cbn [for_each fold_left].
  rewrite (bind_Return _ _ _ _ _ (valid_batch_eq self acc b s)). apply IH.
Qed.

(** What [valid_epoch] comes to, case by case. *)
Lemma valid_epoch_eq self s :
  valid_epoch self s =
  match valid_dataloader self with
  | [] => Throw ZeroDivisionError (after_validation self s)
  | _ =>
      match math_exp (round3 fzero) with
      | Some e => Return (round3 fzero, round3 e) (after_validation self s)
      | None => Throw OverflowError (after_validation self s)
      end
  end.
Proof.
  unfold valid_epoch.
  rewrite (bind_Return (fw_call CModelEval model_eval) _ s tt _ eq_refl).
  rewrite (bind_Return _ _ _ _ _
             (valid_loop_eq self (valid_dataloader self) (PInt 0) _)).
  fold (after_validation self s).
  destruct (valid_dataloader self) as [|b bs]; [reflexivity|].
  rewrite truediv_zero_int by (cbn [length]; lia).
  unfold bind, lift, exp_or_raise, ret.
  destruct (math_exp (round3 fzero)); reflexivity.
Qed.

(** C10: with no batch in the data source, [train_epoch] (respectively
    [valid_epoch]) raises [ZeroDivisionError] at the division by the batch
    count; with at least one batch, neither raises it. *)
Theorem mean_division_unguarded self s :
  (train_dataloader self = [] ->
     exists s', train_epoch self s = Throw ZeroDivisionError s')
  /\ (valid_dataloader self = [] ->
     exists s', valid_epoch self s = Throw ZeroDivisionError s')
  /\ (train_dataloader self <> [] ->
     forall s', train_epoch self s <> Throw ZeroDivisionError s')
  /\ (valid_dataloader self <> [] ->
     forall s', valid_epoch self s <> Throw ZeroDivisionError s').
Proof.
  rewrite train_epoch_eq, valid_epoch_eq. cbv zeta.
  repeat split.
  - intros ->. eexists. reflexivity.
  - intros ->. eexists. reflexivity.
  - intros Hne s'. destruct (train_dataloader self) as [|b bs]; [contradiction|].
    unfold int_to_float.
    destruct (f_is_inf _); [discriminate|].
    destruct (math_exp _); discriminate.
  - intros Hne s'. destruct (valid_dataloader self) as [|b bs]; [contradiction|].
    destruct (math_exp _); discriminate.
Qed.

End TrainPassFacts.

(** ** The epoch loop *)

Section LoopFacts.

Context {T Tensor Blob : Type} `{!Torch T Tensor Blob} `{!Builtins}.

Implicit Types (self : Trainer Tensor) (w : World T Tensor Blob)
  (cls : Methods (T := T) (Tensor := Tensor)).

Lemma record_dict_eq (epoch : Z) (o : epoch_obs Blob) :
  dict_of_pairs
    (combine record_keys
       [VInt epoch; VFloat (o_train_loss o); VFloat (o_train_ppl o);
        VFloat (o_valid_loss o); VFloat (o_valid_ppl o); VFloat (o_lr o);
        VStr (o_time o)])
  = obs_record epoch o.
Proof. reflexivity. Qed.

Lemma print_epoch_eq self (epoch : Z) (o : epoch_obs Blob) w :
  print_epoch self (obs_record epoch o) w
  = Return tt
      {| framework := framework w; ticks := ticks w;
         io := io w ++ map IOPrint (epoch_lines self epoch o);
         files := files w |}.
Proof.
  unfold print_epoch, obs_record, mk_record, epoch_lines.
  unfold bind, lift, print. cbn [dict_get String.eqb Ascii.eqb Bool.eqb].
  cbn [py_format_f as_float rbind py_str io map].
  rewrite <- !app_assoc. reflexivity.
Qed.

Lemma in_framework_Return {A} (c : M (Framework T Tensor) A) w a f :
  c (framework w) = Return a f ->
  in_framework c w
  = Return a {| framework := f; ticks := ticks w; io := io w;
                files := files w |}.
Proof. unfold in_framework. now intros ->. Qed.

Lemma in_framework_Throw {A} (c : M (Framework T Tensor) A) w e f :
  c (framework w) = Throw e f ->
  in_framework c w
  = Throw e {| framework := f; ticks := ticks w; io := io w;
               files := files w |}.
Proof. unfold in_framework. now intros ->. Qed.

(** What one iteration of the loop of [train] comes to, when the best loss
    so far is the float [b]. *)
Lemma train_iteration_eq cls self (b : pyfloat) (records : list dict)
    (epoch : Z) w :
  train_iteration cls self (VFloat b, records) epoch w =
  match m_train_epoch cls self (framework w) with
  | Throw e f =>
      Throw e {| framework := f; ticks := S (ticks w); io := io w;
                 files := files w |}
  | Return (tl, tp) f1 =>
      match m_valid_epoch cls self f1 with
      | Throw e f =>
          Throw e {| framework := f; ticks := S (ticks w); io := io w;
                     files := files w |}
      | Return (vl, vp) f2 =>
          match measure_time (PFloat (time_time (ticks w)))
                             (PFloat (time_time (S (ticks w)))) with
          | Raise e =>
              Throw e {| framework := f2; ticks := S (S (ticks w));
                         io := io w; files := files w |}
          | Ok ts =>
              let t3 := scheduler_step (VFloat vl) (fw f2) in
              let o :=
                {| o_train_loss := tl; o_train_ppl := tp;
                   o_valid_loss := vl; o_valid_ppl := vp;
                   o_lr := optimizer_lr MainOptimizer (fw f2);
                   o_time := ts;
                   o_model_sd := model_state_dict t3;
                   o_optim_sd := optimizer_state_dict MainOptimizer t3 |} in
              let ck :=
                {| ck_epoch := epoch;
                   ck_model_state_dict := model_state_dict t3;
                   ck_optimizer_state_dict :=
                     optimizer_state_dict MainOptimizer t3 |} in
              Return (VFloat (fmin b vl), records ++ [obs_record epoch o])
                {| framework :=
                     {| fw := t3;
                        calls := calls f2 ++ [CSchedulerStep (VFloat vl)] |};
                   ticks := S (S (ticks w));
                   io := io w ++ epoch_events self b epoch o;
                   files := if flt vl b
                            then <[ckpt_path self := FCheckpoint ck]> (files w)
                            else files w |}
          end
      end
  end.
Proof.
  unfold train_iteration.
  rewrite (bind_Return now _ w _ _ eq_refl).
  set (w1 := {| framework := framework w; ticks := S (ticks w); io := io w;
                files := files w |}).
  destruct (m_train_epoch cls self (framework w)) as [[tl tp] f1|e f1] eqn:E1.
  2:{ now rewrite (bind_Throw _ _ w1 e _ (in_framework_Throw _ w1 e f1 E1)). }
  rewrite (bind_Return _ _ w1 _ _ (in_framework_Return _ w1 _ f1 E1)).
  cbn [ticks io files fst snd].
  set (w2 := {| framework := f1; ticks := S (ticks w); io := io w;
                files := files w |}).
  destruct (m_valid_epoch cls self f1) as [[vl vp] f2|e f2] eqn:E2.
  2:{ now rewrite (bind_Throw _ _ w2 e _ (in_framework_Throw _ w2 e f2 E2)). }
  rewrite (bind_Return _ _ w2 _ _ (in_framework_Return _ w2 _ f2 E2)).
  cbn [ticks io files fst snd].
  erewrite bind_Return by (apply in_framework_Return; reflexivity).
  erewrite bind_Return by reflexivity.
  cbn [ticks framework io files fw].
  destruct (measure_time _ _) as [ts|e] eqn:Et.
  2:{ reflexivity. }
  erewrite bind_Return by reflexivity.
  set (o := {| o_train_loss := tl; o_train_ppl := tp; o_valid_loss := vl;
               o_valid_ppl := vp; o_lr := optimizer_lr MainOptimizer (fw f2);
               o_time := ts;
               o_model_sd := model_state_dict (scheduler_step (VFloat vl) (fw f2));
               o_optim_sd := optimizer_state_dict MainOptimizer
                               (scheduler_step (VFloat vl) (fw f2)) |}).
  change (dict_of_pairs _) with (obs_record epoch o).
  erewrite bind_Return by apply print_epoch_eq.
  erewrite bind_Return by reflexivity.
  erewrite bind_Return by (apply in_framework_Return; reflexivity).
  erewrite bind_Return by reflexivity.
  cbv zeta. unfold epoch_events, fmin.
  cbn [num_lt o_valid_loss o].
  destruct (flt vl b).
  - erewrite bind_Return by (apply in_framework_Return; reflexivity).
    erewrite bind_Return by (apply in_framework_Return; reflexivity).
    erewrite bind_Return by reflexivity.
    unfold ret. cbn [framework ticks io files fw calls].
    rewrite <- app_assoc. reflexivity.
  - unfold ret. cbn [framework ticks io files fw calls].
    rewrite app_nil_r. reflexivity.
Qed.

End LoopFacts.

Section RunFacts.

Context {T Tensor Blob : Type} `{!Torch T Tensor Blob} `{!Builtins}.

Implicit Types (self : Trainer Tensor) (w : World T Tensor Blob)
  (cls : Methods (T := T) (Tensor := Tensor)).

(** A loop that returns has run every iteration: there is one observation
    per epoch, and the records, the best loss, the clock and the events are
    those of these observations. *)
Lemma train_loop_inv cls self (epochs : list Z) :
  forall (b : pyfloat) (records : list dict) w best' records' w',
    for_each (train_iteration cls self) epochs (VFloat b, records) w
      = Return (best', records') w' ->
    exists obs : list (epoch_obs Blob),
      length obs = length epochs
      /\ records' = records ++ zip_with obs_record epochs obs
      /\ best' = VFloat (fold_left fmin (map o_valid_loss obs) b)
      /\ ticks w' = (ticks w + 2 * length epochs)%nat
      /\ io w' = io w ++ run_events self b epochs obs.
Proof.
  induction epochs as [|e epochs IH]; intros b records w best' records' w' Hrun.
  - injection Hrun as <- <- <-. exists [].
    cbn. rewrite !app_nil_r. repeat split; lia.
  - cbn [for_each] in Hrun.
    apply bind_Return_inv in Hrun as ([b1 r1] & w1 & Hstep & Hrest).
    rewrite train_iteration_eq in Hstep.
    destruct (m_train_epoch cls self (framework w)) as [[tl tp] f1|? ?];
      [|discriminate].
    destruct (m_valid_epoch cls self f1) as [[vl vp] f2|? ?]; [|discriminate].
    destruct (measure_time _ _) as [ts|?]; [|discriminate].
    cbv zeta in Hstep. injection Hstep as <- <- <-.
    apply IH in Hrest as (obs & Hlen & Hrec & Hbest & Hticks & Hio).
    cbn [ticks io] in Hticks, Hio.
    eexists (_ :: obs). repeat split.
    + cbn [length]. now rewrite Hlen.
    + rewrite Hrec, <- app_assoc. reflexivity.
    + exact Hbest.
    + rewrite Hticks. cbn [length]. lia.
    + rewrite Hio, <- app_assoc. reflexivity.
Qed.


Lemma py_range_length (lo hi : Z) :
  length (py_range lo hi) = Z.to_nat (hi - lo).
Proof. unfold py_range. now rewrite length_map, length_seq. Qed.

Lemma py_range_lookup (lo hi : Z) (i : nat) (e : Z) :
  py_range lo hi !! i = Some e -> e = lo + Z.of_nat i.
Proof.
  unfold py_range.
  replace (lo + Z.of_nat i) with (lo + Z.of_nat (0 + i)) by (f_equal; lia).
  generalize (Z.to_nat (hi - lo)) as n, 0%nat as s. intros n. revert i.
  induction n as [|n IH]; intros i s; [discriminate|].
  destruct i as [|i]; cbn [seq map lookup list_lookup].
  - intros [= <-]. f_equal. lia.
  - intros Hl. apply IH in Hl. rewrite Hl. f_equal. lia.
Qed.

(** A run of [train] that returns: the events are those of one observation
    per epoch, then the dump of the records. *)
Lemma train_run cls self w w' :
  train cls self w = Return tt w' ->
  exists obs : list (epoch_obs Blob),
    let epochs := py_range 1 (n_epochs self + 1) in
    let records := json_of_records (zip_with obs_record epochs obs) in
    length obs = Z.to_nat (n_epochs self)
    /\ io w' = io w ++ run_events self finf epochs obs
                    ++ [IOJsonDump (record_path self) records]
    /\ ticks w' = (ticks w + 2 * Z.to_nat (n_epochs self))%nat
    /\ files w' !! record_path self = Some (FJson records).
Proof.
  unfold train. intros Hrun.
  apply bind_Return_inv in Hrun as ([best records] & w1 & Hloop & Hdump).
  apply train_loop_inv in Hloop as (obs & Hlen & Hrec & _ & Hticks & Hio).
  rewrite py_range_length in Hlen, Hticks.
  replace (n_epochs self + 1 - 1) with (n_epochs self) in Hlen, Hticks by lia.
  exists obs. cbv zeta.
  unfold json_dump_to in Hdump. injection Hdump as <-.
  cbn [io ticks files]. rewrite Hio, Hrec, <- app_assoc. cbn [app].
  repeat split; try assumption.
  apply lookup_insert_eq.
Qed.

End RunFacts.

(** ** Checkpoints and the record file *)

Section ImprovingFacts.




Lemma improving_none (b : pyfloat) (epochs : list Z) (vs : list pyfloat) :
  Forall (fun v => flt v b = false) vs -> improving b epochs vs = [].
Proof.
  revert vs. induction epochs as [|e epochs IH]; intros [|v vs] Hall;
    cbn [improving]; try reflexivity.
  apply Forall_cons_1 in Hall as [Hv Hall]. unfold fmin. rewrite Hv.
  now apply IH.
Qed.



End ImprovingFacts.

Section EventFacts.

Context {Tensor Blob : Type} `{!Builtins}.

Implicit Types (self : Trainer Tensor) (evs : list (io_event Blob)).

Lemma saved_epochs_app evs evs' :
  saved_epochs (evs ++ evs') = saved_epochs evs ++ saved_epochs evs'.
Proof.
  induction evs as [|[] evs IH]; cbn [app saved_epochs]; [reflexivity|..];
    now rewrite IH.
Qed.

Lemma dumps_app evs evs' : dumps (evs ++ evs') = dumps evs ++ dumps evs'.
Proof.
  induction evs as [|[] evs IH]; cbn [app dumps]; [reflexivity|..];
    now rewrite IH.
Qed.


Lemma writes_to_app path evs evs' :
  writes_to path (evs ++ evs')
  = (writes_to path evs + writes_to path evs')%nat.
Proof. unfold writes_to. now rewrite List.filter_app, length_app. Qed.

Lemma saved_run_events self (b : pyfloat) (epochs : list Z)
    (obs : list (epoch_obs Blob)) :
  saved_epochs (run_events self b epochs obs)
  = improving b epochs (map o_valid_loss obs).
Proof.
  revert b obs. induction epochs as [|e epochs IH]; intros b [|o obs];
    cbn [run_events improving map]; try reflexivity.
  unfold epoch_events. rewrite !saved_epochs_app, IH.
  f_equal. destruct (flt (o_valid_loss o) b); reflexivity.
Qed.

Lemma dumps_run_events self (b : pyfloat) (epochs : list Z)
    (obs : list (epoch_obs Blob)) :
  dumps (run_events self b epochs obs) = [].
Proof.
  revert b obs. induction epochs as [|e epochs IH]; intros b [|o obs];
    cbn [run_events]; try reflexivity.
  unfold epoch_events. rewrite !dumps_app, IH.
  destruct (flt (o_valid_loss o) b); reflexivity.
Qed.


Lemma writes_to_run_events self path (b : pyfloat) (epochs : list Z)
    (obs : list (epoch_obs Blob)) :
  ckpt_path self <> path ->
  writes_to path (run_events self b epochs obs) = 0%nat.
Proof.
  intros Hne. revert b obs.
  induction epochs as [|e epochs IH]; intros b [|o obs];
    cbn [run_events]; try reflexivity.
  unfold epoch_events. rewrite !writes_to_app, IH.
  destruct (flt (o_valid_loss o) b); unfold writes_to; cbn; [|reflexivity].
  destruct (String.eqb_spec (ckpt_path self) path); [contradiction|reflexivity].
Qed.

Lemma recorded_zip (epochs : list Z) (obs : list (epoch_obs Blob)) :
  length obs = length epochs ->
  omap (json_float "valid_loss")
       (map json_of_dict (zip_with obs_record epochs obs))
  = map o_valid_loss obs.
Proof.
  revert obs. induction epochs as [|e epochs IH]; intros [|o obs] Hlen;
    try discriminate; [reflexivity|].
  cbn [zip_with map omap list_omap]. cbn [json_of_dict obs_record mk_record].
  change (json_float "valid_loss" _) with (Some (o_valid_loss o)).
  cbn. f_equal. apply IH. now injection Hlen.
Qed.

End EventFacts.

Section TrainFacts.

Context {T Tensor Blob : Type} `{!Torch T Tensor Blob} `{!Builtins}.

Implicit Types (self : Trainer Tensor) (w : World T Tensor Blob)
  (cls : Methods (T := T) (Tensor := Tensor)).

Lemma py_range_lookup_Some (lo hi : Z) (i : nat) :
  (i < Z.to_nat (hi - lo))%nat -> py_range lo hi !! i = Some (lo + Z.of_nat i).
Proof.
  intros Hi. rewrite <- py_range_length in Hi.
  apply lookup_lt_is_Some_2 in Hi as [e He].
  now rewrite He, (py_range_lookup _ _ _ _ He).
Qed.

(** The events of a run that returns, and what they hold. *)
Lemma new_events_run cls self w w' :
  train cls self w = Return tt w' ->
  exists obs : list (epoch_obs Blob),
    let epochs := py_range 1 (n_epochs self + 1) in
    let records := map json_of_dict (zip_with obs_record epochs obs) in
    length obs = length epochs
    /\ length epochs = Z.to_nat (n_epochs self)
    /\ new_events w w' = run_events self finf epochs obs
                         ++ [IOJsonDump (record_path self) (JArr records)]
    /\ saved_epochs (new_events w w')
       = improving finf epochs (map o_valid_loss obs)
    /\ dumps (new_events w w') = [(record_path self, JArr records)]
    /\ recorded_floats "valid_loss" (new_events w w') = map o_valid_loss obs
    /\ ticks w' = (ticks w + 2 * Z.to_nat (n_epochs self))%nat
    /\ files w' !! record_path self = Some (FJson (JArr records)).
Proof.
  intros Hrun. apply train_run in Hrun as (obs & Hlen & Hio & Hticks & Hfiles).
  cbv zeta in *. exists obs.
  assert (Hlen' : length (py_range 1 (n_epochs self + 1))
                  = Z.to_nat (n_epochs self)).
  { rewrite py_range_length. f_equal. lia. }
  assert (Hnew : new_events w w'
    = run_events self finf (py_range 1 (n_epochs self + 1)) obs
      ++ [IOJsonDump (record_path self)
            (JArr (map json_of_dict
                     (zip_with obs_record (py_range 1 (n_epochs self + 1)) obs)))]).
  { unfold new_events. rewrite Hio. apply drop_app_length. }
  assert (Hdumps : dumps (new_events w w')
    = [(record_path self,
        JArr (map json_of_dict
                (zip_with obs_record (py_range 1 (n_epochs self + 1)) obs)))]).
  { rewrite Hnew, dumps_app, dumps_run_events. reflexivity. }
  repeat split; try assumption.
  - now rewrite Hlen'.
  - rewrite Hnew, saved_epochs_app, saved_run_events. cbn. apply app_nil_r.
  - unfold recorded_floats, dumped_records. rewrite Hdumps.
    apply recorded_zip. now rewrite Hlen'.
Qed.



(** C5: a run of [train] that returns dumps one document, as its last
    event, to the record path; when the checkpoint path is another file this
    is the only write to the record path.  The document, which is what the
    file holds afterwards, is an array of [n_epochs] objects; the object at
    position [i] has the seven keys of [record_keys], in this order, and
    [i + 1] as its epoch. *)
Theorem record_file_written_once cls self w w' :
  train cls self w = Return tt w' ->
  exists records : list json,
    dumps (new_events w w') = [(record_path self, JArr records)]
    /\ last (new_events w w')
       = Some (IOJsonDump (record_path self) (JArr records))
    /\ (ckpt_path self <> record_path self ->
        writes_to (record_path self) (new_events w w') = 1%nat)
    /\ files w' !! record_path self = Some (FJson (JArr records))
    /\ length records = Z.to_nat (n_epochs self)
    /\ (forall (i : nat) (j : json),
          records !! i = Some j ->
          json_keys j = record_keys
          /\ json_member "epoch" j = Some (JNum (PInt (Z.of_nat i + 1)))).
Proof.
  intros Hrun.
  apply new_events_run in Hrun
    as (obs & Hlen & Hlen' & Hnew & _ & Hdumps & _ & _ & Hfiles).
  cbv zeta in *.
  set (epochs := py_range 1 (n_epochs self + 1)) in *.
  exists (map json_of_dict (zip_with obs_record epochs obs)).
  split; [exact Hdumps|]. split; [|split; [|split; [exact Hfiles|split]]].
  - rewrite Hnew. apply last_snoc.
  - intros Hne. rewrite Hnew, writes_to_app, writes_to_run_events by assumption.
    unfold writes_to. cbn. now rewrite String.eqb_refl.
  - rewrite length_map, length_zip_with, Hlen, Hlen'. lia.
  - intros i j Hj.
    change (map json_of_dict ?l) with (json_of_dict <$> l) in Hj.
    rewrite list_lookup_fmap, lookup_zip_with in Hj.
    destruct (epochs !! i) as [e|] eqn:He; [|discriminate].
    destruct (obs !! i) as [o|] eqn:Ho; [|discriminate].
    cbn in Hj. injection Hj as <-.
    apply py_range_lookup in He. subst e.
    split; [reflexivity|].
    cbn. do 3 f_equal. lia.
Qed.


End TrainFacts.

(** ** Rounding a quotient *)

Section DivisionFacts.

Lemma digits_53_54 (p : positive) :
  2 ^ 52 <= Zpos p < 2 ^ 54 ->
  (Zpos (digits2_pos p) = 53 /\ Zpos p < 2 ^ 53)
  \/ (Zpos (digits2_pos p) = 54 /\ 2 ^ 53 <= Zpos p).
Proof.
  intros [Hlo Hhi].
  pose proof (digits2_pos_bounds p) as [Dlo Dhi].
  set (d := Zpos (digits2_pos p)) in *.
  assert (52 < d).
  { destruct (Z_lt_le_dec 52 d) as [|Hle]; [assumption|].
    pose proof (Z.pow_le_mono_r 2 d 52 ltac:(lia) Hle). lia. }
  assert (d < 55).
  { destruct (Z_lt_le_dec d 55) as [|Hle]; [assumption|].
    pose proof (Z.pow_le_mono_r 2 54 (d - 1) ltac:(lia) ltac:(lia)). lia. }
  assert (Hd : d = 53 \/ d = 54) by lia.
  destruct Hd as [Hd|Hd]; rewrite Hd in *; [left|right]; split; lia.
Qed.

(** The last stage of [binary_round_aux]: a mantissa of 53 bits, or [2^53],
    is kept, the latter as [2^52] one exponent higher. *)
Lemma final_normalize (m e : Z) :
  2 ^ 52 <= m <= 2 ^ 53 -> emin64 <= e -> e + 1 <= emax - prec ->
  exists (M : positive) (E : Z),
    (let '(mrs, e') := shr_fexp prec emax m e loc_Exact in
     match shr_m mrs with
     | Z0 => S754_zero false
     | Zpos M => if e' <=? emax - prec
                 then S754_finite false M e' else S754_infinity false
     | Zneg _ => S754_nan
     end) = S754_finite false M E
    /\ e <= E /\ Zpos M * 2 ^ (E - e) = m.
Proof.
  intros [Hlo Hhi] He Hmax.
  destruct m as [|p|p]; try lia.
  unfold shr_fexp. cbn [Zdigits2 shr_record_of_loc].
  destruct (digits_53_54 p ltac:(lia)) as [[Hd Hp]|[Hd Hp]]; rewrite Hd.
  - replace (fexp prec emax (53 + e) - e) with 0
      by (unfold fexp, emin64, emin, prec, emax in *; lia).
    cbn [shr shr_m].
    destruct (Z.leb_spec e (emax - prec)); [|lia].
    exists p, e. rewrite Z.sub_diag. split; [reflexivity|]. lia.
  - replace (fexp prec emax (54 + e) - e) with 1
      by (unfold fexp, emin64, emin, prec, emax in *; lia).
    assert (Ep : p = 9007199254740992%positive) by lia. subst p.
    cbn [shr SpecFloat.iter_pos shr_1 shr_m].
    destruct (Z.leb_spec (e + 1) (emax - prec)); [|lia].
    exists 4503599627370496%positive, (e + 1).
    split; [reflexivity|]. split; [lia|].
    replace (e + 1 - e) with 1 by lia. reflexivity.
Qed.

(** Rounding to nearest a mantissa of 53 or 54 bits moves it by at most one
    unit of its exponent, and down only from an odd mantissa. *)
Lemma round_aux_near (m e : Z) (l : location) :
  2 ^ 52 <= m < 2 ^ 54 -> emin64 <= e -> e + 2 <= emax - prec ->
  exists (M : positive) (E : Z),
    binary_round_aux prec emax false m e l = S754_finite false M E
    /\ e <= E
    /\ (Zpos M * 2 ^ (E - e) = m
        \/ Zpos M * 2 ^ (E - e) = m + 1
        \/ (Zpos M * 2 ^ (E - e) = m - 1 /\ Z.odd m = true)).
Proof.
  intros [Hlo Hhi] He Hmax.
  destruct m as [|p|p]; try lia.
  unfold binary_round_aux, shr_fexp at 1. cbn [Zdigits2].
  destruct (digits_53_54 p ltac:(lia)) as [[Hd Hp]|[Hd Hp]]; rewrite Hd.
  - replace (fexp prec emax (53 + e) - e) with 0
      by (unfold fexp, emin64, emin, prec, emax in *; lia).
    cbn [shr]. rewrite shr_record_of_loc_m, loc_of_shr_record_of_loc.
    assert (Hr : round_nearest_even (Zpos p) l = Zpos p
                 \/ round_nearest_even (Zpos p) l = Zpos p + 1).
    { destruct l as [|[]]; cbn [round_nearest_even]; auto.
      destruct (Z.even (Zpos p)); auto. }
    destruct Hr as [Hr|Hr]; rewrite Hr.
    + destruct (final_normalize (Zpos p) e ltac:(lia) He ltac:(lia))
        as (M & E & HM & HE & HV).
      exists M, E. auto.
    + destruct (final_normalize (Zpos p + 1) e ltac:(lia) He ltac:(lia))
        as (M & E & HM & HE & HV).
      exists M, E. auto.
  - replace (fexp prec emax (54 + e) - e) with 1
      by (unfold fexp, emin64, emin, prec, emax in *; lia).
    cbn [shr SpecFloat.iter_pos].
    destruct p as [p'|p'|]; [| |lia].
    + (* odd mantissa *)
      assert (Hr : round_nearest_even
                     (shr_m (shr_1 (shr_record_of_loc (Zpos p'~1) l)))
                     (loc_of_shr_record (shr_1 (shr_record_of_loc (Zpos p'~1) l)))
                   = Zpos p'
                   \/ round_nearest_even
                     (shr_m (shr_1 (shr_record_of_loc (Zpos p'~1) l)))
                     (loc_of_shr_record (shr_1 (shr_record_of_loc (Zpos p'~1) l)))
                   = Zpos p' + 1).
      { destruct l as [|[]]; cbn; auto. destruct p'; auto. }
      destruct Hr as [Hr|Hr]; rewrite Hr.
      * destruct (final_normalize (Zpos p') (e + 1) ltac:(lia) ltac:(lia) ltac:(lia))
          as (M & E & HM & HE & HV).
        exists M, E. split; [exact HM|]. split; [lia|].
        right. right. split; [|reflexivity].
        replace (E - e) with (1 + (E - (e + 1))) by lia.
        rewrite Z.pow_add_r by lia. change (2 ^ 1) with 2. lia.
      * destruct (final_normalize (Zpos p' + 1) (e + 1) ltac:(lia) ltac:(lia) ltac:(lia))
          as (M & E & HM & HE & HV).
        exists M, E. split; [exact HM|]. split; [lia|].
        right. left.
        replace (E - e) with (1 + (E - (e + 1))) by lia.
        rewrite Z.pow_add_r by lia. change (2 ^ 1) with 2. lia.
    + (* even mantissa *)
      assert (Hr : round_nearest_even
                     (shr_m (shr_1 (shr_record_of_loc (Zpos p'~0) l)))
                     (loc_of_shr_record (shr_1 (shr_record_of_loc (Zpos p'~0) l)))
                   = Zpos p').
      { destruct l as [|[]]; reflexivity. }
      rewrite Hr.
      destruct (final_normalize (Zpos p') (e + 1) ltac:(lia) ltac:(lia) ltac:(lia))
        as (M & E & HM & HE & HV).
      exists M, E. split; [exact HM|]. split; [lia|].
      left.
      replace (E - e) with (1 + (E - (e + 1))) by lia.
      rewrite Z.pow_add_r by lia. change (2 ^ 1) with 2. lia.
Qed.

End DivisionFacts.

Section SixtyFacts.

Lemma div_eucl_div_mod (a b : Z) : Z.div_eucl a b = (a / b, a mod b).
Proof. unfold Z.div, Z.modulo. now destruct (Z.div_eucl a b). Qed.

(** The quotient and the position of the remainder that division by 60
    hands to the rounding, for a dividend of at most 53 bits. *)
Lemma div_core_60 (p : positive) :
  Zpos (digits2_pos p) <= 53 ->
  SFdiv_core_binary prec emax (Zpos p) 0 60 0
  = (Zpos p * 2 ^ (59 - Zpos (digits2_pos p)) / 60,
     Zpos (digits2_pos p) - 59,
     new_location 60 (Zpos p * 2 ^ (59 - Zpos (digits2_pos p)) mod 60)).
Proof.
  intros Hd. unfold SFdiv_core_binary. cbn [Zdigits2].
  change (Zpos (digits2_pos 60)) with 6.
  set (d := Zpos (digits2_pos p)) in *.
  assert (0 < d) by (unfold d; lia).
  replace (Z.min (fexp prec emax (d + 0 - (6 + 0))) (0 - 0)) with (d - 59)
    by (unfold fexp, emin, prec, emax; lia).
  replace (0 - 0 - (d - 59)) with (59 - d) by lia.
  destruct (59 - d) as [|s|s] eqn:Es; try lia.
  rewrite Z.shiftl_mul_pow2 by lia.
  now rewrite div_eucl_div_mod.
Qed.

Lemma shiftl_scaled (M E e : Z) :
  0 <= M -> e <= E -> e <= 0 ->
  Z.shiftl M E = M * 2 ^ (E - e) / 2 ^ (- e).
Proof.
  intros HM HE He.
  destruct (Z_le_gt_dec 0 E) as [HE0|HE0].
  - rewrite Z.shiftl_mul_pow2 by lia.
    replace (E - e) with (E + - e) by lia.
    rewrite Z.pow_add_r, Z.mul_assoc by lia.
    symmetry. apply Z.div_mul.
    apply Z.pow_nonzero; lia.
  - replace E with (- (- E)) at 1 by lia.
    rewrite Z.shiftl_opp_r, Z.shiftr_div_pow2 by lia.
    replace (- e) with ((E - e) + - E) by lia.
    rewrite Z.pow_add_r by lia.
    rewrite (Z.mul_comm M).
    symmetry. apply Z.div_mul_cancel_l; apply Z.pow_nonzero; lia.
Qed.

(** Dividing a positive integer of at most 53 bits by 60 and truncating the
    quotient gives the integer quotient. *)
Lemma div60_trunc (p : positive) :
  Zpos p < 2 ^ 53 ->
  exists (M : positive) (E : Z),
    fdiv (Z2SF (Zpos p)) (Z2SF 60) = S754_finite false M E
    /\ Z.shiftl (Zpos M) E = Zpos p / 60.
Proof.
  intros Hp.
  pose proof (digits2_pos_bounds p) as [Dlo Dhi].
  set (d := Zpos (digits2_pos p)) in *.
  assert (Hd0 : 0 < d) by (unfold d; lia).
  assert (Hd : d <= 53).
  { destruct (Z_le_gt_dec d 53) as [|Hgt]; [assumption|].
    pose proof (Z.pow_le_mono_r 2 53 (d - 1) ltac:(lia) ltac:(lia)). lia. }
  unfold fdiv, Z2SF, SFdiv. rewrite (div_core_60 p Hd). fold d.
  cbn [xorb].
  set (S := 2 ^ (59 - d)).
  assert (HS : 64 <= S).
  { unfold S. change 64 with (2 ^ 6). apply Z.pow_le_mono_r; lia. }
  assert (HSeven : S = 2 * 2 ^ (58 - d)).
  { unfold S. replace (59 - d) with (1 + (58 - d)) by lia.
    rewrite Z.pow_add_r by lia. reflexivity. }
  assert (HpS : 2 ^ 58 <= Zpos p * S < 2 ^ 59).
  { unfold S.
    replace (2 ^ 58) with (2 ^ (d - 1) * 2 ^ (59 - d))
      by (rewrite <- Z.pow_add_r by lia; f_equal; lia).
    replace (2 ^ 59) with (2 ^ d * 2 ^ (59 - d))
      by (rewrite <- Z.pow_add_r by lia; f_equal; lia).
    assert (0 < 2 ^ (59 - d)) by (apply Z.pow_pos_nonneg; lia).
    split; [apply Z.mul_le_mono_nonneg_r; lia|].
    apply Z.mul_lt_mono_pos_r; lia. }
  set (m := Zpos p * S / 60).
  pose proof (Z.div_mod (Zpos p * S) 60 ltac:(lia)) as Hdm.
  pose proof (Z.mod_pos_bound (Zpos p * S) 60 ltac:(lia)) as Hmod.
  fold m in Hdm.
  assert (Hm : 2 ^ 52 <= m < 2 ^ 54) by lia.
  destruct (round_aux_near m (d - 59)
              (new_location 60 (Zpos p * S mod 60)) Hm
              ltac:(unfold emin64, emin, prec, emax; lia)
              ltac:(unfold prec, emax; lia))
    as (M & E & HM & HE & HV).
  exists M, E. split; [exact HM|].
  rewrite (shiftl_scaled (Zpos M) E (d - 59)) by lia.
  replace (- (d - 59)) with (59 - d) by lia. fold S.
  set (V := Zpos M * 2 ^ (E - (d - 59))) in *.
  set (k := Zpos p / 60).
  pose proof (Z.div_mod (Zpos p) 60 ltac:(lia)) as Hpk.
  pose proof (Z.mod_pos_bound (Zpos p) 60 ltac:(lia)) as Hrho.
  fold k in Hpk.
  set (rho := Zpos p mod 60) in *.
  assert (HkS : Zpos p * S = 60 * (k * S) + rho * S) by (rewrite Hpk; ring).
  assert (HrS : 0 <= rho * S <= 59 * S).
  { split; [apply Z.mul_nonneg_nonneg; lia|].
    apply Z.mul_le_mono_nonneg_r; lia. }
  assert (Hlow : k * S <= m) by lia.
  assert (Hup : m + 1 < (k + 1) * S) by lia.
  symmetry. apply Z.div_unique with (r := V - k * S); [|lia].
  left. destruct HV as [HV|[HV|[HV Hodd]]]; try lia.
  assert (Hm2 : m = 2 * (m / 2) + 1).
  { rewrite (Z.div_mod m 2) at 1 by lia.
    rewrite Zmod_odd, Hodd. reflexivity. }
  assert (HkS2 : k * S = 2 * (k * 2 ^ (58 - d))) by (rewrite HSeven; ring).
  lia.
Qed.

End SixtyFacts.

(** ** Exact conversions and differences *)

Section ExactFacts.






End ExactFacts.

(** ** Float timestamps *)

Section FloatTimeFacts.




End FloatTimeFacts.

Section FloatSecondsFacts.



End FloatSecondsFacts.

Section FloatTimeExact.


End FloatTimeExact.

(** ** The formatting helper *)

Section MeasureTimeFacts.



End MeasureTimeFacts.

(** ** The theorems at work on the reference instance *)

Module Witnesses.

Import Reference.

(** The validation pass over an empty data source does not return the pair
    (0.0, 1.0): it raises [ZeroDivisionError]. *)
Lemma valid_epoch_empty_source_raises :
  valid_epoch (trainer 1 [3] []) fw0
    = Throw ZeroDivisionError {| fw := 0; calls := [CModelEval] |}
  /\ forall s', valid_epoch (trainer 1 [3] []) fw0 <> Return (fzero, fone) s'.
Proof. split; [reflexivity|discriminate]. Qed.

Lemma valid_epoch_zero_loss_witness :
  exists s', valid_epoch (trainer 1 [3] [1; 2]) fw0 = Return (fzero, fone) s'.
Proof.
  apply valid_epoch_zero_loss; [reflexivity|reflexivity|reflexivity|discriminate].
Defined.



Lemma record_file_written_once_witness :
  exists records : list json,
    dumps (new_events world0
             (final_state (train Trainer_class (trainer 2 [3; 5] [1]) world0)))
      = [("ckpt/bert.json"%string, JArr records)]
    /\ length records = 2%nat.
Proof.
  destruct (record_file_written_once Trainer_class (trainer 2 [3; 5] [1]) world0
              (final_state (train Trainer_class (trainer 2 [3; 5] [1]) world0)))
    as (records & Hd & _ & _ & _ & Hlen & _); [vm_compute; reflexivity|].
  exists records. split; [exact Hd|exact Hlen].
Defined.

Lemma train_epoch_loss_and_ppl_witness :
  exists s',
    train_epoch (trainer 1 [3; 5] [1]) fw0
    = Return (S754_finite false 7881299347898368 (-51),
              S754_finite false 5002091811125068 (-48)) s'.
Proof.
  destruct (train_epoch_loss_and_ppl (trainer 1 [3; 5] [1]) fw0)
    as [_ H]; [discriminate|].
  edestruct H as [s' Hs']; [reflexivity|vm_compute; reflexivity|].
  exists s'. exact Hs'.
Defined.



Lemma mean_division_unguarded_witness :
  (exists s', train_epoch (trainer 1 [] [1]) fw0 = Throw ZeroDivisionError s')
  /\ forall s', train_epoch (trainer 1 [3] [1]) fw0 <> Throw ZeroDivisionError s'.
Proof.
  split.
  - apply (proj1 (mean_division_unguarded (trainer 1 [] [1]) fw0)).
    reflexivity.
  - apply (proj1 (proj2 (proj2 (mean_division_unguarded (trainer 1 [3] [1]) fw0)))).
    discriminate.
Defined.


End Witnesses.

(** * Further properties *)

(** ** The validation pass *)

Section ValidPassFacts.

Context {T Tensor Blob : Type} `{!Torch T Tensor Blob} `{!Builtins}.

Implicit Types (self : Trainer Tensor) (s : Framework T Tensor).

Lemma valid_fold_calls self (bs : list (Batch Tensor)) s :
  calls
    (fold_left
       (fun s b =>
          {| fw := snd (model_forward false
                          (tensor_to (device self) (input_ids b))
                          (tensor_to (device self) (token_type_ids b))
                          (tensor_to (device self) (labels b)) (fw s));
             calls := calls s ++
               [CForward false (tensor_to (device self) (input_ids b))
                               (tensor_to (device self) (token_type_ids b))
                               (tensor_to (device self) (labels b))] |})
       bs s)
  = calls s ++ map (valid_call self) bs.
Proof.
  revert s. induction bs as [|b bs IH]; intros s; cbn [fold_left map].
  - now rewrite app_nil_r.
  - rewrite IH. cbn [calls]. now rewrite <- app_assoc.
Qed.



End ValidPassFacts.

(** ** Runs without epochs *)

Section EmptyRunFacts.

Context {T Tensor Blob : Type} `{!Torch T Tensor Blob} `{!Builtins}.

Implicit Types (self : Trainer Tensor) (w : World T Tensor Blob)
  (cls : Methods (T := T) (Tensor := Tensor)).

(** X2: with [n_epochs] zero or negative the loop body never runs: [train]
    calls neither pass, reads no clock, prints nothing, saves no checkpoint,
    and dumps an empty array to the record path. *)
Theorem train_without_epochs cls self w :
  n_epochs self <= 0 ->
  train cls self w
  = Return tt
      {| framework := framework w; ticks := ticks w;
         io := io w ++ [IOJsonDump (record_path self) (JArr [])];
         files := <[record_path self := FJson (JArr [])]> (files w) |}.
Proof.
  intros Hn. unfold train, py_range.
  replace (Z.to_nat (n_epochs self + 1 - 1)) with 0%nat by lia.
  reflexivity.
Qed.

End EmptyRunFacts.

(** ** Every outcome of the epoch loop *)

Section OutcomeFacts.

Context {T Tensor Blob : Type} `{!Torch T Tensor Blob} `{!Builtins}.

Implicit Types (self : Trainer Tensor) (w : World T Tensor Blob)
  (cls : Methods (T := T) (Tensor := Tensor)).

Lemma replay_app (evs evs' : list (io_event Blob)) fs :
  replay (evs ++ evs') fs = replay evs' (replay evs fs).
Proof. unfold replay. apply fold_left_app. Qed.

Lemma replay_prints (texts : list string) (fs : gmap string (file Blob)) :
  replay (map IOPrint texts) fs = fs.
Proof. induction texts as [|t texts IH]; [reflexivity|exact IH]. Qed.

Lemma replay_epoch_events self (b : pyfloat) (e : Z) (o : epoch_obs Blob) fs :
  replay (epoch_events self b e o) fs
  = if flt (o_valid_loss o) b
    then <[ckpt_path self :=
             FCheckpoint {| ck_epoch := e;
                            ck_model_state_dict := o_model_sd o;
                            ck_optimizer_state_dict := o_optim_sd o |}]> fs
    else fs.
Proof.
  unfold epoch_events. rewrite replay_app, replay_prints.
  destruct (flt (o_valid_loss o) b); reflexivity.
Qed.

(** Whether the loop returns or raises: the epochs that completed left one
    observation each, in order; the events are those of these observations
    and the files are what these events wrote.  The loop returns exactly
    when every epoch completed.  A property the results of each pass have is
    a property of every observation. *)
Lemma train_loop_outcome cls self
    (Pt Pv : pyfloat * pyfloat -> Prop) (epochs : list Z) :
  (forall f r f', m_train_epoch cls self f = Return r f' -> Pt r) ->
  (forall f r f', m_valid_epoch cls self f = Return r f' -> Pv r) ->
  forall (b : pyfloat) (records : list dict) w,
    exists obs : list (epoch_obs Blob),
      Forall (fun o => Pt (o_train_loss o, o_train_ppl o)
                       /\ Pv (o_valid_loss o, o_valid_ppl o)) obs
      /\ io (final_state
               (for_each (train_iteration cls self) epochs (VFloat b, records) w))
         = io w ++ run_events self b epochs obs
      /\ files (final_state
               (for_each (train_iteration cls self) epochs (VFloat b, records) w))
         = replay (run_events self b epochs obs) (files w)
      /\ match for_each (train_iteration cls self) epochs (VFloat b, records) w with
         | Return (best, records') _ =>
             length obs = length epochs
             /\ records' = records ++ zip_with obs_record epochs obs
         | Throw _ _ => (length obs < length epochs)%nat
         end.
Proof.
  intros HPt HPv.
  induction epochs as [|e epochs IH]; intros b records w.
  - exists []. cbn. rewrite !app_nil_r. repeat split. constructor.
  - cbn [for_each].
    pose proof (train_iteration_eq cls self b records e w) as Hstep.
    destruct (m_train_epoch cls self (framework w)) as [[tl tp] f1|ex f1] eqn:E1.
    2:{ rewrite (bind_Throw _ _ _ _ _ Hstep). exists [].
        cbn. rewrite app_nil_r. repeat split; [constructor|lia]. }
    destruct (m_valid_epoch cls self f1) as [[vl vp] f2|ex f2] eqn:E2.
    2:{ rewrite (bind_Throw _ _ _ _ _ Hstep). exists [].
        cbn. rewrite app_nil_r. repeat split; [constructor|lia]. }
    destruct (measure_time _ _) as [ts|ex].
    2:{ rewrite (bind_Throw _ _ _ _ _ Hstep). exists [].
        cbn. rewrite app_nil_r. repeat split; [constructor|lia]. }
    cbv zeta in Hstep. rewrite (bind_Return _ _ _ _ _ Hstep).
    match type of Hstep with
    | _ = Return (_, _ ++ [obs_record e ?o]) ?w1 =>
        destruct (IH (fmin b vl) (records ++ [obs_record e o]) w1)
          as (obs & HP & Hio & Hfiles & Hres);
        exists (o :: obs)
    end.
    split; [|split; [|split]].
    + constructor; [|exact HP]. cbn. split; eauto.
    + rewrite Hio. cbn [io run_events o_valid_loss]. now rewrite <- app_assoc.
    + rewrite Hfiles. cbn [files run_events o_valid_loss].
      rewrite replay_app, replay_epoch_events. reflexivity.
    + destruct (for_each _ _ _ _) as [[best records'] w2|ex w2].
      * destruct Hres as [Hlen Hrec]. split; [cbn; now rewrite Hlen|].
        rewrite Hrec, <- app_assoc. reflexivity.
      * cbn. lia.
Qed.

(** Every outcome of [train]. *)
Lemma train_outcome cls self (Pt Pv : pyfloat * pyfloat -> Prop) w :
  (forall f r f', m_train_epoch cls self f = Return r f' -> Pt r) ->
  (forall f r f', m_valid_epoch cls self f = Return r f' -> Pv r) ->
  let epochs := py_range 1 (n_epochs self + 1) in
  exists obs : list (epoch_obs Blob),
    Forall (fun o => Pt (o_train_loss o, o_train_ppl o)
                     /\ Pv (o_valid_loss o, o_valid_ppl o)) obs
    /\ files (final_state (train cls self w))
       = replay (new_events w (final_state (train cls self w))) (files w)
    /\ match train cls self w with
       | Return _ w' =>
           length obs = Z.to_nat (n_epochs self)
           /\ new_events w w'
              = run_events self finf epochs obs
                ++ [IOJsonDump (record_path self)
                      (JArr (map json_of_dict (zip_with obs_record epochs obs)))]
       | Throw _ w' =>
           (length obs < Z.to_nat (n_epochs self))%nat
           /\ new_events w w' = run_events self finf epochs obs
       end.
Proof.
  intros HPt HPv epochs.
  destruct (train_loop_outcome cls self Pt Pv epochs HPt HPv finf [] w)
    as (obs & HP & Hio & Hfiles & Hres).
  assert (Hlen : length epochs = Z.to_nat (n_epochs self)).
  { unfold epochs. rewrite py_range_length. f_equal. lia. }
  exists obs. split; [exact HP|].
  unfold train. fold epochs. unfold bind.
  destruct (for_each _ _ _ _) as [[best records] w1|ex w1];
    cbn [final_state] in *.
  - destruct Hres as [Hlo Hrec]. cbn [app] in Hrec. subst records.
    unfold json_dump_to, new_events. cbn [final_state io files].
    rewrite Hio, Hfiles, <- app_assoc, drop_app_length, replay_app.
    split; [reflexivity|]. split; [now rewrite Hlo|reflexivity].
  - unfold new_events. rewrite Hio, Hfiles, drop_app_length.
    split; [reflexivity|]. split; [now rewrite <- Hlen|reflexivity].
Qed.

End OutcomeFacts.

(** ** Crashes, checkpoints and the class as written *)

Section CheckpointFacts.

Context {T Tensor Blob : Type} `{!Torch T Tensor Blob} `{!Builtins}.

Implicit Types (self : Trainer Tensor) (w : World T Tensor Blob)
  (cls : Methods (T := T) (Tensor := Tensor)).








End CheckpointFacts.

Section SavedLossFacts.

Lemma improving_losses_decrease (b : pyfloat) (vs : list pyfloat) :
  strictly_decreasing (b :: improving_losses b vs).
Proof.
  revert b. induction vs as [|v vs IH]; intros b; [exact I|].
  cbn [improving_losses]. unfold fmin.
  destruct (flt v b) eqn:Hv; cbn [app].
  - split; [exact Hv|apply IH].
  - apply IH.
Qed.

Lemma losses_at_improving (pre vs : list pyfloat) (b : pyfloat) :
  omap (fun e => (pre ++ vs) !! Z.to_nat (e - 1))
       (improving b
          (map (fun i => 1 + Z.of_nat i) (seq (length pre) (length vs))) vs)
  = improving_losses b vs.
Proof.
  revert pre b. induction vs as [|v vs IH]; intros pre b; [reflexivity|].
  cbn [length seq map improving improving_losses].
  rewrite omap_app. f_equal.
  - destruct (flt v b); [|reflexivity].
    cbn [omap list_omap].
    replace (Z.to_nat (1 + Z.of_nat (length pre) - 1)) with (length pre) by lia.
    now rewrite list_lookup_middle.
  - specialize (IH (pre ++ [v]) (fmin b v)).
    rewrite <- app_assoc, length_app in IH. cbn [app length] in IH.
    replace (length pre + 1)%nat with (S (length pre)) in IH by lia.
    exact IH.
Qed.

Lemma improving_losses_length (b : pyfloat) (es : list Z) (vs : list pyfloat) :
  length es = length vs ->
  length (improving_losses b vs) = length (improving b es vs).
Proof.
  revert b es. induction vs as [|v vs IH]; intros b [|e es] Hlen;
    try discriminate; [reflexivity|].
  cbn [improving improving_losses]. rewrite !length_app.
  rewrite (IH (fmin b v) es) by now injection Hlen.
  now destruct (flt v b).
Qed.

Lemma recorded_zip_ppl {Blob : Type} (epochs : list Z)
    (obs : list (epoch_obs Blob)) :
  length obs = length epochs ->
  omap (json_float "valid_ppl")
       (map json_of_dict (zip_with obs_record epochs obs))
  = map o_valid_ppl obs.
Proof.
  revert obs. induction epochs as [|e epochs IH]; intros [|o obs] Hlen;
    try discriminate; [reflexivity|].
  cbn [zip_with map omap list_omap]. cbn [json_of_dict obs_record mk_record].
  change (json_float "valid_ppl" _) with (Some (o_valid_ppl o)).
  cbn. f_equal. apply IH. now injection Hlen.
Qed.

End SavedLossFacts.

Section SavedLossTheorems.

Context {T Tensor Blob : Type} `{!Torch T Tensor Blob} `{!Builtins}.

Implicit Types (self : Trainer Tensor) (w : World T Tensor Blob)
  (cls : Methods (T := T) (Tensor := Tensor)).

(** X5: in a run of [train] that returns, every epoch that saved a
    checkpoint has a recorded validation loss, and these losses fall
    strictly, from plus infinity on: each checkpoint replaces one with a
    higher loss. *)
Theorem saved_losses_fall cls self w w' :
  train cls self w = Return tt w' ->
  length (losses_at (saved_epochs (new_events w w'))
                    (recorded_floats "valid_loss" (new_events w w')))
  = length (saved_epochs (new_events w w'))
  /\ strictly_decreasing
       (finf :: losses_at (saved_epochs (new_events w w'))
                          (recorded_floats "valid_loss" (new_events w w'))).
Proof.
  intros Hrun.
  apply new_events_run in Hrun
    as (obs & Hlen & Hlen' & _ & Hsaved & _ & Hvs & _ & _).
  cbv zeta in *. rewrite Hsaved, Hvs. unfold losses_at.
  assert (Hl : omap (fun e => map o_valid_loss obs !! Z.to_nat (e - 1))
                 (improving finf (py_range 1 (n_epochs self + 1))
                    (map o_valid_loss obs))
               = improving_losses finf (map o_valid_loss obs)).
  { unfold py_range.
    replace (Z.to_nat (n_epochs self + 1 - 1))
      with (length (map o_valid_loss obs))
      by (rewrite length_map, Hlen, Hlen'; lia).
    exact (losses_at_improving [] (map o_valid_loss obs) finf). }
  rewrite Hl. split.
  - apply improving_losses_length. now rewrite length_map.
  - apply improving_losses_decrease.
Qed.

(** X6: for the class as written, given [round(0.0, 3) = 0.0],
    [math.exp(0.0) = 1.0] and [round(1.0, 3) = 1.0]: a run of [train] over
    at least one epoch that returns has recorded validation loss 0.0 and
    perplexity 1.0 for every epoch and has saved the checkpoint exactly
    once, in epoch 1, whatever the model learned afterwards. *)
Theorem as_written_saves_first_epoch_only self w w' :
  round3 fzero = fzero ->
  math_exp fzero = Some fone ->
  round3 fone = fone ->
  1 <= n_epochs self ->
  train Trainer_class self w = Return tt w' ->
  saved_epochs (new_events w w') = [1]
  /\ recorded_floats "valid_loss" (new_events w w')
     = repeat fzero (Z.to_nat (n_epochs self))
  /\ recorded_floats "valid_ppl" (new_events w w')
     = repeat fone (Z.to_nat (n_epochs self)).
Proof.
  intros Hr0 He0 Hr1 Hn Hrun.
  destruct (train_outcome Trainer_class self (fun _ => True)
              (fun r => r = (fzero, fone)) w (fun _ _ _ _ => I))
    as (obs & HP & _ & Hres).
  { intros f r f'. cbn [m_valid_epoch Trainer_class].
    rewrite valid_epoch_eq, Hr0, He0, Hr1.
    destruct (valid_dataloader self); [discriminate|]. now intros [= <- _]. }
  apply new_events_run in Hrun as Hrun'.
  rewrite Hrun in Hres. destruct Hres as [Hlen Hnew].
  destruct Hrun' as (obs' & Hlen1 & Hlen2 & Hnew' & _ & _ & _ & _ & _).
  clear obs' Hlen1 Hnew'.
  assert (Hvs : map o_valid_loss obs = repeat fzero (length obs)
                /\ map o_valid_ppl obs = repeat fone (length obs)).
  { clear Hlen Hnew. induction HP as [|o obs [_ Ho] _ [IH1 IH2]];
      [split; reflexivity|].
    cbn [map length repeat]. injection Ho as -> ->. now rewrite IH1, IH2. }
  destruct Hvs as [Hvs Hps].
  assert (Hsaved : saved_epochs (new_events w w')
                   = improving finf (py_range 1 (n_epochs self + 1))
                       (map o_valid_loss obs)).
  { rewrite Hnew, saved_epochs_app, saved_run_events. cbn. apply app_nil_r. }
  assert (Hrec : recorded_floats "valid_loss" (new_events w w')
                 = map o_valid_loss obs).
  { unfold recorded_floats, dumped_records.
    rewrite Hnew, dumps_app, dumps_run_events. cbn [dumps app].
    apply recorded_zip. now rewrite Hlen, Hlen2. }
  assert (Hrecp : recorded_floats "valid_ppl" (new_events w w')
                  = map o_valid_ppl obs).
  { unfold recorded_floats, dumped_records.
    rewrite Hnew, dumps_app, dumps_run_events. cbn [dumps app].
    apply recorded_zip_ppl. now rewrite Hlen, Hlen2. }
  rewrite Hsaved, Hrec, Hrecp, Hvs, Hps, Hlen.
  split; [|split; reflexivity].
  pose proof (py_range_lookup_Some 1 (n_epochs self + 1) 0 ltac:(lia)) as H1.
  destruct (py_range 1 (n_epochs self + 1)) as [|e1 es]; [discriminate|].
  injection H1 as ->.
  destruct (Z.to_nat (n_epochs self)) as [|n] eqn:En; [lia|].
  cbn [repeat improving]. change (flt fzero finf) with true.
  cbn [app]. f_equal.
  apply improving_none. clear. induction n; constructor; auto.
Qed.

End SavedLossTheorems.

(** ** Printing an epoch *)

Section PrintFacts.

Context {T Tensor Blob : Type} `{!Torch T Tensor Blob} `{!Builtins}.

Implicit Types (self : Trainer Tensor) (w : World T Tensor Blob).

Lemma py_format_f_Ok (d : nat) (v : pyval) (s : string) :
  py_format_f d v = Ok s ->
  exists (n : pynum) (x : pyfloat), v = VNum n /\ as_float n = Ok x.
Proof.
  destruct v as [n|t]; [|discriminate]. cbn [py_format_f].
  destruct (as_float n) as [x|] eqn:En; [|discriminate].
  intros _. now exists n, x.
Qed.

(** X7: [print_epoch] returns exactly when the record has the keys [epoch]
    and [train_time] and a number that converts to float under
    [train_loss], [train_ppl], [valid_loss] and [valid_ppl]; it then has
    printed three texts.  Otherwise it raises after fewer than three.  In
    both cases it touches nothing but the output. *)
Theorem print_epoch_returns_iff_printable self (d : dict) w :
  ((exists w', print_epoch self d w = Return tt w') <-> printable d)
  /\ exists texts : list string,
       io (final_state (print_epoch self d w)) = io w ++ map IOPrint texts
       /\ framework (final_state (print_epoch self d w)) = framework w
       /\ ticks (final_state (print_epoch self d w)) = ticks w
       /\ files (final_state (print_epoch self d w)) = files w
       /\ match print_epoch self d w with
          | Return _ _ => length texts = 3%nat
          | Throw _ _ => (length texts < 3)%nat
          end.
Proof.
  unfold printable, formattable, print_epoch.
  unfold bind, lift, print.
  destruct (dict_get d "epoch") as [v1|e1].
  2:{ split; [split; [intros [? ?]; discriminate|intros [[? ?] _]; discriminate]|].
      exists []. cbn. rewrite app_nil_r. repeat split; lia. }
  destruct (dict_get d "train_time") as [v2|e2].
  2:{ split; [split; [intros [? ?]; discriminate|intros (_ & [? ?] & _); discriminate]|].
      exists []. cbn. rewrite app_nil_r. repeat split; lia. }
  destruct (dict_get d "train_loss") as [v3|e3].
  2:{ split; [split; [intros [? ?]; discriminate
                     |intros (_ & _ & (? & ? & ? & _) & _); discriminate]|].
      eexists [_]. cbn. repeat split; lia. }
  destruct (py_format_f 3 v3) as [s3|e3] eqn:F3.
  2:{ split; [split; [intros [? ?]; discriminate|]|].
      - intros (_ & _ & (n & x & [= ->] & Hx) & _).
        cbn [py_format_f] in F3. rewrite Hx in F3. discriminate.
      - eexists [_]. cbn. repeat split; lia. }
  destruct (dict_get d "train_ppl") as [v4|e4].
  2:{ split; [split; [intros [? ?]; discriminate
                     |intros (_ & _ & _ & (? & ? & ? & _) & _); discriminate]|].
      eexists [_]. cbn. repeat split; lia. }
  destruct (py_format_f 2 v4) as [s4|e4] eqn:F4.
  2:{ split; [split; [intros [? ?]; discriminate|]|].
      - intros (_ & _ & _ & (n & x & [= ->] & Hx) & _).
        cbn [py_format_f] in F4. rewrite Hx in F4. discriminate.
      - eexists [_]. cbn. repeat split; lia. }
  destruct (dict_get d "valid_loss") as [v5|e5].
  2:{ split; [split; [intros [? ?]; discriminate
                     |intros (_ & _ & _ & _ & (? & ? & ? & _) & _); discriminate]|].
      eexists [_; _]. cbn. rewrite <- app_assoc. repeat split; lia. }
  destruct (py_format_f 3 v5) as [s5|e5] eqn:F5.
  2:{ split; [split; [intros [? ?]; discriminate|]|].
      - intros (_ & _ & _ & _ & (n & x & [= ->] & Hx) & _).
        cbn [py_format_f] in F5. rewrite Hx in F5. discriminate.
      - eexists [_; _]. cbn. rewrite <- app_assoc. repeat split; lia. }
  destruct (dict_get d "valid_ppl") as [v6|e6].
  2:{ split; [split; [intros [? ?]; discriminate
                     |intros (_ & _ & _ & _ & _ & (? & ? & ? & _)); discriminate]|].
      eexists [_; _]. cbn. rewrite <- app_assoc. repeat split; lia. }
  destruct (py_format_f 2 v6) as [s6|e6] eqn:F6.
  2:{ split; [split; [intros [? ?]; discriminate|]|].
      - intros (_ & _ & _ & _ & _ & (n & x & [= ->] & Hx)).
        cbn [py_format_f] in F6. rewrite Hx in F6. discriminate.
      - eexists [_; _]. cbn. rewrite <- app_assoc. repeat split; lia. }
  split.
  - split; [intros _|intros _; now eexists].
    apply py_format_f_Ok in F3 as (n3 & x3 & -> & H3).
    apply py_format_f_Ok in F4 as (n4 & x4 & -> & H4).
    apply py_format_f_Ok in F5 as (n5 & x5 & -> & H5).
    apply py_format_f_Ok in F6 as (n6 & x6 & -> & H6).
    repeat split; eauto.
  - eexists [_; _; _]. cbn. rewrite <- !app_assoc. repeat split.
Qed.

End PrintFacts.

(** ** The scheduler *)

Section SchedulerFacts.

Context {T Tensor Blob : Type} `{!Torch T Tensor Blob} `{!Builtins}.

Implicit Types (self : Trainer Tensor) (w : World T Tensor Blob)
  (cls : Methods (T := T) (Tensor := Tensor)).

Lemma scheduler_metrics_app (cs cs' : list (call Tensor)) :
  scheduler_metrics (cs ++ cs')
  = scheduler_metrics cs ++ scheduler_metrics cs'.
Proof.
  induction cs as [|[] cs IH]; cbn [app scheduler_metrics];
    [reflexivity|..]; now rewrite ?IH.
Qed.

(** The loop steps the scheduler once per completed epoch, with that
    epoch's validation loss, when the passes themselves do not step it. *)
Lemma train_loop_scheduler cls self (epochs : list Z) :
  (forall f r f', m_train_epoch cls self f = Return r f' ->
     scheduler_metrics (calls f') = scheduler_metrics (calls f)) ->
  (forall f r f', m_valid_epoch cls self f = Return r f' ->
     scheduler_metrics (calls f') = scheduler_metrics (calls f)) ->
  forall (b : pyfloat) (records : list dict) w best' records' w',
    for_each (train_iteration cls self) epochs (VFloat b, records) w
      = Return (best', records') w' ->
    exists obs : list (epoch_obs Blob),
      length obs = length epochs
      /\ records' = records ++ zip_with obs_record epochs obs
      /\ io w' = io w ++ run_events self b epochs obs
      /\ scheduler_metrics (calls (framework w'))
         = scheduler_metrics (calls (framework w))
           ++ map (fun o => VFloat (o_valid_loss o)) obs.
Proof.
  intros Htrain Hvalid.
  induction epochs as [|e epochs IH]; intros b records w best' records' w' Hrun.
  - injection Hrun as <- <- <-. exists []. cbn. now rewrite !app_nil_r.
  - cbn [for_each] in Hrun.
    apply bind_Return_inv in Hrun as ([b1 r1] & w1 & Hstep & Hrest).
    rewrite train_iteration_eq in Hstep.
    destruct (m_train_epoch cls self (framework w)) as [[tl tp] f1|? ?] eqn:E1;
      [|discriminate].
    destruct (m_valid_epoch cls self f1) as [[vl vp] f2|? ?] eqn:E2;
      [|discriminate].
    destruct (measure_time _ _) as [ts|?]; [|discriminate].
    cbv zeta in Hstep. injection Hstep as <- <- <-.
    apply IH in Hrest as (obs & Hlen & Hrec & Hio & Hsched).
    cbn [framework calls io] in Hsched, Hio.
    eexists (_ :: obs). split; [cbn; now rewrite Hlen|].
    split; [rewrite Hrec, <- app_assoc; reflexivity|].
    split; [rewrite Hio, <- app_assoc; reflexivity|].
    rewrite Hsched, scheduler_metrics_app.
    rewrite (Hvalid _ _ _ E2), (Htrain _ _ _ E1).
    cbn [scheduler_metrics map o_valid_loss]. now rewrite <- app_assoc.
Qed.

Lemma train_epoch_final_state self (s : Framework T Tensor) :
  final_state (train_epoch self s) = after_training self s.
Proof.
  rewrite train_epoch_eq. cbv zeta.
  destruct (train_dataloader self); [reflexivity|].
  destruct (int_to_float _); [|reflexivity].
  destruct (math_exp _); reflexivity.
Qed.

Lemma valid_epoch_final_state self (s : Framework T Tensor) :
  final_state (valid_epoch self s) = after_validation self s.
Proof.
  rewrite valid_epoch_eq.
  destruct (valid_dataloader self); [reflexivity|].
  destruct (math_exp _); reflexivity.
Qed.

Lemma scheduler_metrics_batch_calls self (bs : list (Batch Tensor)) :
  scheduler_metrics (flat_map (batch_calls self) bs) = [].
Proof. induction bs as [|b bs IH]; [reflexivity|exact IH]. Qed.

Lemma scheduler_metrics_valid_calls self (bs : list (Batch Tensor)) :
  scheduler_metrics (map (valid_call self) bs) = [].
Proof. induction bs as [|b bs IH]; [reflexivity|exact IH]. Qed.

(** X8: for the class as written, a run of [train] that returns has stepped
    the scheduler once per epoch, in order, each time with the validation
    loss recorded for that epoch. *)
Theorem scheduler_stepped_once_per_epoch self w w' :
  train Trainer_class self w = Return tt w' ->
  scheduler_metrics (calls (framework w'))
  = scheduler_metrics (calls (framework w))
    ++ map (fun v => VFloat v)
           (recorded_floats "valid_loss" (new_events w w'))
  /\ length (recorded_floats "valid_loss" (new_events w w'))
     = Z.to_nat (n_epochs self).
Proof.
  intros Hrun. unfold train in Hrun.
  apply bind_Return_inv in Hrun as ([best records] & w1 & Hloop & Hdump).
  apply train_loop_scheduler in Hloop as (obs & Hlen & Hrec & Hio & Hsched).
  - unfold json_dump_to in Hdump. injection Hdump as <-.
    cbn [framework]. cbn [app] in Hrec. subst records.
    assert (Hvs : recorded_floats "valid_loss"
                    (new_events w
                       {| framework := framework w1; ticks := ticks w1;
                          io := io w1 ++
                            [IOJsonDump (record_path self)
                               (json_of_records
                                  (zip_with obs_record
                                     (py_range 1 (n_epochs self + 1)) obs))];
                          files := <[record_path self :=
                                       FJson (json_of_records
                                                (zip_with obs_record
                                                   (py_range 1 (n_epochs self + 1)) obs))]>
                                     (files w1) |})
                  = map o_valid_loss obs).
    { unfold new_events, recorded_floats, dumped_records. cbn [io].
      rewrite Hio, <- app_assoc, drop_app_length, dumps_app, dumps_run_events.
      cbn [dumps app json_of_records]. now apply recorded_zip. }
    rewrite Hvs, Hsched, map_map, length_map, Hlen, py_range_length.
    split; [reflexivity|f_equal; lia].
  - intros f r f'. cbn [m_train_epoch Trainer_class]. intros Hpass.
    pose proof (train_epoch_final_state self f) as Hfin.
    rewrite Hpass in Hfin. cbn [final_state] in Hfin. subst f'.
    unfold after_training. cbn [calls].
    rewrite scheduler_metrics_app. cbn [scheduler_metrics].
    rewrite scheduler_metrics_batch_calls. apply app_nil_r.
  - intros f r f'. cbn [m_valid_epoch Trainer_class]. intros Hpass.
    pose proof (valid_epoch_final_state self f) as Hfin.
    rewrite Hpass in Hfin. cbn [final_state] in Hfin. subst f'.
    unfold after_validation. rewrite valid_fold_calls. cbn [calls].
    rewrite !scheduler_metrics_app. cbn [scheduler_metrics].
    rewrite scheduler_metrics_valid_calls. now rewrite !app_nil_r.
Qed.

End SchedulerFacts.

(** ** Elapsed times of either sign *)

Section SignedTimeFacts.

Lemma binary_round_aux_opp (m e : Z) (l : location) :
  binary_round_aux prec emax true m e l
  = SFopp (binary_round_aux prec emax false m e l).
Proof.
  unfold binary_round_aux.
  destruct (shr_fexp prec emax m e l) as [mrs' e'].
  destruct (shr_fexp prec emax _ e' loc_Exact) as [mrs'' e''].
  destruct (shr_m mrs''); [reflexivity| |reflexivity].
  destruct (e'' <=? emax - prec); reflexivity.
Qed.

Lemma fdiv_neg_60 (p : positive) :
  fdiv (Z2SF (Zneg p)) (Z2SF 60) = SFopp (fdiv (Z2SF (Zpos p)) (Z2SF 60)).
Proof.
  unfold fdiv, Z2SF, SFdiv. cbn [xorb].
  destruct (SFdiv_core_binary prec emax (Zpos p) 0 60 0) as [[mz ez] lz].
  apply binary_round_aux_opp.
Qed.

(** X9: for whole-second timestamps in either order whose difference is
    below [2^53] in magnitude, [measure_time] shows the quotient of the
    elapsed seconds by 60 and the remainder, both truncated toward zero: a
    start after the end gives two negative fields, as in
    [measure_time(125, 0) = "-2m -5s"]. *)
Theorem measure_time_truncates_toward_zero (a b : Z) :
  Z.abs (b - a) < 2 ^ 53 ->
  measure_time (PInt a) (PInt b)
  = Ok (pretty (Z.quot (b - a) 60) +:+ "m "
        +:+ pretty (Z.rem (b - a) 60) +:+ "s").
Proof.
  intros Habs. unfold measure_time.
  unfold py_sub at 1, py_arith. cbn [rbind].
  set (e := b - a) in *.
  unfold py_truediv. cbn [Z.eqb rbind].
  assert (Hq : exists q, fdiv (Z2SF e) (Z2SF 60) = q /\ f_is_inf q = false
                         /\ float_to_int q = Ok (Z.quot e 60)).
  { destruct e as [|p|p].
    - exists (S754_zero false). repeat split.
    - destruct (div60_trunc p ltac:(lia)) as (M & E & HM & HV).
      exists (S754_finite false M E). repeat split; [exact HM|].
      cbn [float_to_int]. rewrite HV, Z.quot_div_nonneg by lia. reflexivity.
    - destruct (div60_trunc p ltac:(lia)) as (M & E & HM & HV).
      exists (S754_finite true M E). repeat split.
      + rewrite fdiv_neg_60, HM. reflexivity.
      + cbn [float_to_int]. rewrite HV.
        change (Zneg p) with (- Zpos p).
        rewrite Z.quot_opp_l, Z.quot_div_nonneg by lia. reflexivity. }
  destruct Hq as (q & -> & Hinf & Hint). rewrite Hinf.
  cbn [rbind py_int]. rewrite Hint. cbn [rbind].
  unfold py_mul, py_sub, py_arith. cbn [rbind py_int].
  replace (e - Z.quot e 60 * 60) with (Z.rem e 60); [reflexivity|].
  pose proof (Z.quot_rem' e 60). lia.
Qed.

End SignedTimeFacts.

(** ** The texts of [print_epoch] *)

Section SpaceRunFacts.

Lemma replace_from_step (old new : string) (c : ascii) (s : string) :
  replace_from old new 0 (String c s)
  = if String.prefix old (String c s)
    then new +:+
         match String.length old with
         | O => String c (replace_from old new 0 s)
         | S k => replace_from old new k s
         end
    else String c (replace_from old new 0 s).
Proof. reflexivity. Qed.

Lemma runs_below_from_step (n r : nat) (c : ascii) (s : string) :
  runs_below_from n r (String c s)
  = if Ascii.eqb c " "
    then (S r <? n)%nat && runs_below_from n (S r) s
    else runs_below_from n 0 s.
Proof. reflexivity. Qed.

Lemma string_app_nil (s : string) : s +:+ "" = s.
Proof.
  induction s as [|c s IH]; [reflexivity|].
  change (String c (s +:+ "") = String c s). now rewrite IH.
Qed.

Lemma string_app_assoc' (a b c : string) : (a +:+ b) +:+ c = a +:+ b +:+ c.
Proof.
  induction a as [|x a IH]; [reflexivity|].
  change (String x ((a +:+ b) +:+ c) = String x (a +:+ b +:+ c)).
  now rewrite IH.
Qed.

(** A run of [m] spaces at the head of a text fits under the bound. *)
Lemma prefix_spaces_run (n : nat) (s u : string) (r m : nat) :
  runs_below_from n r s = true ->
  starts_nonspace u = true ->
  String.prefix (spaces m) (s +:+ u) = true ->
  m = 0%nat \/ (r + m < n)%nat.
Proof.
  revert r m. induction s as [|c s IH]; intros r m Hs Hu Hp.
  - destruct m as [|m]; [now left|]. exfalso.
    destruct u as [|c t]; [discriminate Hp|].
    change (match ascii_dec " " c with
            | left _ => String.prefix (spaces m) t
            | right _ => false
            end = true) in Hp.
    destruct (ascii_dec " " c) as [<-|]; discriminate.
  - destruct m as [|m]; [now left|]. right.
    change (match ascii_dec " " c with
            | left _ => String.prefix (spaces m) (s +:+ u)
            | right _ => false
            end = true) in Hp.
    destruct (ascii_dec " " c) as [<-|]; [|discriminate].
    change ((S r <? n)%nat && runs_below_from n (S r) s = true) in Hs.
    apply andb_prop in Hs as [Hr Hs].
    apply Nat.ltb_lt in Hr.
    destruct (IH _ _ Hs Hu Hp) as [->|]; lia.
Qed.

(** A text without a run of 14 spaces goes through the replacement as it
    is, up to the next text when that does not begin with a space. *)
Lemma replace_short_runs (r : nat) (s u : string) :
  runs_below_from 14 r s = true ->
  starts_nonspace u = true ->
  replace_from (spaces 14) "" 0 (s +:+ u)
  = s +:+ replace_from (spaces 14) "" 0 u.
Proof.
  revert r. induction s as [|c s IH]; intros r Hs Hu; [reflexivity|].
  change (String c s +:+ u) with (String c (s +:+ u)).
  rewrite replace_from_step.
  destruct (String.prefix (spaces 14) (String c (s +:+ u))) eqn:Hp.
  - destruct (prefix_spaces_run 14 (String c s) u r 14 Hs Hu Hp); lia.
  - change (String c s +:+ ?x) with (String c (s +:+ x)). f_equal.
    rewrite runs_below_from_step in Hs. destruct (Ascii.eqb c " ").
    + apply andb_prop in Hs as [_ Hs]. now apply (IH (S r)).
    + now apply (IH 0%nat).
Qed.

(** A run of exactly 14 spaces is removed. *)
Lemma replace_indentation (u : string) :
  replace_from (spaces 14) "" 0 (spaces 14 +:+ u)
  = replace_from (spaces 14) "" 0 u.
Proof.
  change (spaces 14 +:+ u) with (String " " (spaces 13 +:+ u)).
  rewrite replace_from_step.
  assert (Hp : String.prefix (spaces 14) (String " " (spaces 13 +:+ u)) = true)
    by (destruct u; reflexivity).
  rewrite Hp. reflexivity.
Qed.

Lemma runs_below_mono (n m r r' : nat) (s : string) :
  (n <= m)%nat -> (n + r' <= m + r)%nat ->
  runs_below_from n r s = true -> runs_below_from m r' s = true.
Proof.
  intros Hnm. revert r r'. induction s as [|c s IH]; intros r r' Hr Hs;
    [reflexivity|].
  rewrite runs_below_from_step in *. destruct (Ascii.eqb c " ").
  - apply andb_prop in Hs as [Hlt Hs]. apply Nat.ltb_lt in Hlt.
    apply andb_true_intro. split; [apply Nat.ltb_lt; lia|].
    apply (IH (S r)); [lia|exact Hs].
  - apply (IH 0%nat); [lia|exact Hs].
Qed.

Lemma runs_below_app (n m r : nat) (a b : string) :
  (n <= m)%nat -> (r < n)%nat ->
  runs_below_from n r a = true ->
  (forall r', (r' < n)%nat -> runs_below_from m r' b = true) ->
  runs_below_from m r (a +:+ b) = true.
Proof.
  intros Hnm. revert r. induction a as [|c a IH]; intros r Hr Ha Hb.
  - now apply Hb.
  - change (String c a +:+ b) with (String c (a +:+ b)).
    rewrite runs_below_from_step in *. destruct (Ascii.eqb c " ").
    + apply andb_prop in Ha as [Hlt Ha]. apply Nat.ltb_lt in Hlt.
      apply andb_true_intro. split; [apply Nat.ltb_lt; lia|].
      apply IH; [lia|exact Ha|exact Hb].
    + apply IH; [lia|exact Ha|exact Hb].
Qed.

(** The replacement in a text of the shape of the three texts: the 14
    spaces that follow the bar and its space are removed, nothing else. *)
Lemma replace_indent (P Q : string) :
  runs_below_from 14 0 (P +:+ " ") = true ->
  runs_below_from 14 0 (" " +:+ Q) = true ->
  str_replace (P +:+ " | " +:+ spaces 14 +:+ Q) (spaces 14) ""
  = P +:+ " | " +:+ Q.
Proof.
  intros HP HQ. unfold str_replace.
  change (P +:+ " | " +:+ spaces 14 +:+ Q)
    with (P +:+ " " +:+ String "|" (spaces 14 +:+ " " +:+ Q)).
  rewrite <- string_app_assoc'.
  rewrite (replace_short_runs 0 (P +:+ " ")
             (String "|" (spaces 14 +:+ " " +:+ Q)) HP eq_refl).
  rewrite replace_from_step.
  change (String.prefix (spaces 14) (String "|" ?x)) with false. cbv iota.
  rewrite replace_indentation.
  rewrite <- (string_app_nil (" " +:+ Q)) at 1.
  rewrite (replace_short_runs 0 (" " +:+ Q) "" HQ eq_refl).
  change (replace_from (spaces 14) "" 0 "") with ""%string.
  rewrite string_app_nil, string_app_assoc'. reflexivity.
Qed.

(** A text without spaces passes under every bound. *)
Lemma runs_below_no_space (n r : nat) (s : string) :
  runs_below_from 1 0 s = true -> runs_below_from n r s = true.
Proof.
  revert r. induction s as [|c s IH]; intros r Hs; [reflexivity|].
  rewrite runs_below_from_step in *. destruct (Ascii.eqb c " ").
  - discriminate.
  - now apply IH.
Qed.

(** Decimal numerals have no spaces. *)
Lemma pretty_N_go_no_space (x : N) (s : string) :
  runs_below_from 1 0 s = true -> runs_below_from 1 0 (pretty_N_go x s) = true.
Proof.
  revert s. induction (N.lt_wf_0 x) as [x _ IH]; intros s Hs.
  assert (x = 0 \/ 0 < x)%N as [->|Hx] by lia.
  - now rewrite pretty_N_go_0.
  - rewrite pretty_N_go_step by exact Hx. apply IH.
    { now apply N.div_lt. }
    unfold pretty_N_char. repeat case_match; exact Hs.
Qed.

Lemma pretty_Z_no_space (z : Z) : runs_below_from 1 0 (pretty z) = true.
Proof.
  assert (HN : forall x : N, runs_below_from 1 0 (pretty x) = true).
  { intros x. unfold pretty, pretty_N.
    destruct (decide (x = 0%N)); [reflexivity|].
    now apply pretty_N_go_no_space. }
  destruct z as [|p|p]; [reflexivity|apply (HN (Npos p))|].
  change (pretty (Zneg p)) with ("-" +:+ pretty (Npos p)).
  exact (HN (Npos p)).
Qed.

End SpaceRunFacts.

Section PrintTextTheorem.

Context {T Tensor Blob : Type} `{!Torch T Tensor Blob} `{!Builtins}.

Implicit Types (self : Trainer Tensor) (w : World T Tensor Blob).

Lemma epoch_lines_plain self (epoch : Z) (o : epoch_obs Blob) :
  compact_fields o = true ->
  epoch_lines self epoch o = plain_lines self epoch o.
Proof.
  unfold compact_fields, runs_below. intros Hc.
  apply andb_prop in Hc as [Hc Hvp]. apply andb_prop in Hc as [Hc Hvl].
  apply andb_prop in Hc as [Hc Htp]. apply andb_prop in Hc as [Htime Htl].
  assert (Hlit : forall r' f, (r' < 2)%nat -> runs_below_from 12 0 f = true ->
            runs_below_from 13 r' f = true).
  { intros r' f Hr. apply runs_below_mono; lia. }
  assert (Hnum : forall (z : Z) r', runs_below_from 13 r' (pretty z) = true).
  { intros z r'. apply runs_below_no_space, pretty_Z_no_space. }
  assert (Hend : forall r' f, (r' < 2)%nat -> runs_below_from 12 0 f = true ->
            runs_below_from 14 r' f = true).
  { intros r' f Hr. apply runs_below_mono; lia. }
  assert (Hsp : forall r', (r' < 13)%nat -> runs_below_from 14 r' " " = true).
  { intros r' Hr. rewrite runs_below_from_step.
    apply andb_true_intro. split; [|reflexivity].
    apply Nat.ltb_lt. lia. }
  unfold epoch_lines, plain_lines. f_equal; [|f_equal; [|f_equal]].
  - transitivity
      (str_replace
         (("Epoch " +:+ pretty epoch +:+ "/" +:+ pretty (n_epochs self))
          +:+ " | " +:+ spaces 14 +:+ "Time: " +:+ o_time o)
         (spaces 14) "").
    { now rewrite !string_app_assoc'. }
    rewrite replace_indent.
    + now rewrite !string_app_assoc'.
    + rewrite !string_app_assoc'.
      change (runs_below_from 14 1
                (pretty epoch +:+ "/" +:+ pretty (n_epochs self) +:+ " ")
              = true).
      apply (runs_below_app 13); [lia|lia|apply Hnum|]. intros r' _.
      change (runs_below_from 14 0 (pretty (n_epochs self) +:+ " ") = true).
      apply (runs_below_app 13); [lia|lia|apply Hnum|exact Hsp].
    + change (runs_below_from 14 1 (o_time o) = true). apply Hend; [lia|assumption].
  - transitivity
      (str_replace
         (("  >> Train Loss: " +:+ format_f 3 (o_train_loss o))
          +:+ " | " +:+ spaces 14 +:+ "Train PPL: "
          +:+ format_f 2 (o_train_ppl o))
         (spaces 14) "").
    { now rewrite !string_app_assoc'. }
    rewrite replace_indent.
    + now rewrite !string_app_assoc'.
    + rewrite !string_app_assoc'.
      change (runs_below_from 14 1 (format_f 3 (o_train_loss o) +:+ " ") = true).
      apply (runs_below_app 13); [lia|lia|apply Hlit; [lia|assumption]|exact Hsp].
    + change (runs_below_from 14 1 (format_f 2 (o_train_ppl o)) = true).
      apply Hend; [lia|assumption].
  - transitivity
      (str_replace
         (("  >> Valid Loss: " +:+ format_f 3 (o_valid_loss o))
          +:+ " | " +:+ spaces 14 +:+ "Valid PPL: "
          +:+ format_f 2 (o_valid_ppl o) +:+ newline)
         (spaces 14) "").
    { now rewrite !string_app_assoc'. }
    rewrite replace_indent.
    + now rewrite !string_app_assoc'.
    + rewrite !string_app_assoc'.
      change (runs_below_from 14 1 (format_f 3 (o_valid_loss o) +:+ " ") = true).
      apply (runs_below_app 13); [lia|lia|apply Hlit; [lia|assumption]|exact Hsp].
    + change (runs_below_from 14 1 (format_f 2 (o_valid_ppl o) +:+ newline)
              = true).
      apply (runs_below_app 13); [lia|lia|apply Hlit; [lia|assumption]|]. reflexivity.
Qed.

(** X10: for the record [train] builds for an epoch, when none of the time
    text and the four formatted numbers has 12 spaces in a row,
    [print_epoch] prints the three texts each on one line: the backslash
    joins the two lines of each literal, [replace] removes the 14 spaces of
    indentation and nothing else, and one space is left after the bar. *)
Theorem print_epoch_strips_indentation self (epoch : Z) (o : epoch_obs Blob) w :
  compact_fields o = true ->
  print_epoch self (obs_record epoch o) w
  = Return tt
      {| framework := framework w; ticks := ticks w;
         io := io w ++ map IOPrint (plain_lines self epoch o);
         files := files w |}.
Proof.
  intros Hc. rewrite print_epoch_eq.
  now rewrite (epoch_lines_plain self epoch o Hc).
Qed.

End PrintTextTheorem.

(** ** The further properties at work on the reference instance *)

Module FurtherWitnesses.

Import Reference.

Lemma train_without_epochs_witness :
  train Trainer_class (trainer 0 [1] [1]) world0
  = Return tt
      {| framework := fw0; ticks := 0;
         io := [IOJsonDump "ckpt/bert.json" (JArr [])];
         files := {["ckpt/bert.json"%string := FJson (JArr [])]} |}.
Proof.
  exact (train_without_epochs Trainer_class (trainer 0 [1] [1]) world0
           ltac:(simpl; lia)).
Defined.



Lemma saved_losses_fall_witness :
  strictly_decreasing
    (finf ::
     losses_at
       (saved_epochs
          (new_events world0
             (final_state (train scripted_class (trainer 3 [1] [1]) world0))))
       (recorded_floats "valid_loss"
          (new_events world0
             (final_state (train scripted_class (trainer 3 [1] [1]) world0))))).
Proof.
  destruct (saved_losses_fall scripted_class (trainer 3 [1] [1]) world0
              (final_state (train scripted_class (trainer 3 [1] [1]) world0)))
    as [_ Hd]; [vm_compute; reflexivity|].
  exact Hd.
Defined.

Lemma as_written_saves_first_epoch_only_witness :
  saved_epochs
    (new_events world0
       (final_state (train Trainer_class (trainer 3 [5; 2] [1]) world0)))
  = [1].
Proof.
  destruct (as_written_saves_first_epoch_only (trainer 3 [5; 2] [1]) world0
              (final_state (train Trainer_class (trainer 3 [5; 2] [1]) world0)))
    as [Hs _];
    [vm_compute; reflexivity|vm_compute; reflexivity|vm_compute; reflexivity
    |simpl; lia|vm_compute; reflexivity|].
  exact Hs.
Defined.

Lemma scheduler_stepped_once_per_epoch_witness :
  length
    (recorded_floats "valid_loss"
       (new_events world0
          (final_state (train Trainer_class (trainer 3 [5; 2] [1]) world0))))
  = Z.to_nat 3.
Proof.
  destruct (scheduler_stepped_once_per_epoch (trainer 3 [5; 2] [1]) world0
              (final_state (train Trainer_class (trainer 3 [5; 2] [1]) world0)))
    as [_ Hl]; [vm_compute; reflexivity|].
  exact Hl.
Defined.

Lemma measure_time_truncates_toward_zero_witness :
  measure_time (PInt 125) (PInt 0) = Ok "-2m -5s"%string.
Proof.
  exact (measure_time_truncates_toward_zero 125 0
           ltac:(vm_compute; reflexivity)).
Defined.

Lemma print_epoch_strips_indentation_witness :
  print_epoch (trainer 3 [1] [1])
    (obs_record 1
       {| o_train_loss := float_of_Z 2; o_train_ppl := float_of_Z 7;
          o_valid_loss := fzero; o_valid_ppl := fone; o_lr := f_0_1;
          o_time := "0m 7s"; o_model_sd := 0; o_optim_sd := 0 |})
    world0
  = Return tt
      {| framework := fw0; ticks := 0;
         io := [IOPrint "Epoch 1/3 | Time: 0m 7s";
                IOPrint "  >> Train Loss: 2.000 | Train PPL: 7.00";
                IOPrint ("  >> Valid Loss: 0.000 | Valid PPL: 1.00"
                         +:+ newline)];
         files := ∅ |}.
Proof.
  refine (print_epoch_strips_indentation (trainer 3 [1] [1]) 1
            {| o_train_loss := float_of_Z 2; o_train_ppl := float_of_Z 7;
               o_valid_loss := fzero; o_valid_ppl := fone; o_lr := f_0_1;
               o_time := "0m 7s"; o_model_sd := 0; o_optim_sd := 0 |}
            world0 _).
  vm_compute. reflexivity.
Defined.

End FurtherWitnesses.
